(** * Voice-agent backend: pipeline orchestration

    A shallow embedding of the request handlers of [main.py] (and of the
    earlier [templates/main.py]) together with the helper clients they are
    built from.  The three cloud providers are collaborators reached over
    HTTP; their replies are supplied by a [world] record, and every call a
    handler makes is recorded in the [trace] of the state, next to the two
    pieces of process state the handlers share: the file system and the
    in-memory [chat_store]. *)

From Stdlib Require Import ZArith String Ascii List.
From stdpp Require Import gmap strings list fin_maps pretty.

Open Scope string_scope.
Open Scope list_scope.
Open Scope Z_scope.

(** ** Python values *)

(** Strings are sequences of code points below 256; [len] and slicing
    count code points. *)
Definition bytes := list Byte.byte.

Definition nl : string := String "010"%char "".

(** A JSON object whose fields hold strings; an object with a [null] or a
    non-string field is not represented.  A reply body is an object or an
    array of objects. *)
Inductive jval :=
| JObj (o : gmap string string)
| JArr (l : list (gmap string string)).

(** The outcome of a Python expression: a value, or a raised exception,
    kept as its [str(e)]. *)
Inductive result (A : Type) :=
| Ok (a : A)
| Raise (msg : string).
Arguments Ok {A} a.
Arguments Raise {A} msg.

(** [requests.Response]: [r.json()] raises when the body does not parse. *)
Record response := {
  resp_status_code : Z;
  resp_text : string;
  resp_content : bytes;
  resp_json : result jval
}.

(** [x or y] and [not x] on values that are [None] or a string. *)
Definition truthy (x : option string) : bool :=
  match x with
  | Some s => negb (String.eqb s "")
  | None => false
  end.

Definition py_or (x y : option string) : option string :=
  if truthy x then x else y.

(** [f"{x}"] for a value that is [None] or a string. *)
Definition py_str (x : option string) : string :=
  match x with
  | Some s => s
  | None => "None"
  end.

(** [j.get(k)] : only a dict has [get]. *)
Definition py_get (j : jval) (k : string) : result (option string) :=
  match j with
  | JObj o => Ok (o !! k)
  | JArr _ => Raise "'list' object has no attribute 'get'"
  end.

(** ** The world outside the process *)

Record murf_payload := {
  voiceId : option string;
  payload_text : string;
  payload_format : string
}.

(** One entry per call that leaves the process, in the order made. *)
Inductive event :=
| EvUpload (data : bytes)
| EvTranscript (audio_url : option string)
| EvPoll (url : string)
| EvSleep (secs : Z)
| EvGenerate (prompt : string)
| EvVoices
| EvSpeech (p : murf_payload)
| EvDownload (url : string).

(** What the providers answer during one request.  A [Raise] is an
    exception of the HTTP client itself (no connection, ...).
    [poll_endpoint url i] is the answer to the [i]-th status request of a
    polling loop, counted from 0.  [gemini_client] is [None] when no key is
    configured.  [now] is what [int(time.time())] reads. *)
Record world := {
  now : Z;
  upload_endpoint : bytes -> result response;
  transcript_endpoint : option string -> result response;
  poll_endpoint : string -> nat -> result response;
  gemini_client : option (string -> result string);
  voices_endpoint : result response;
  speech_endpoint : murf_payload -> result response;
  download_endpoint : string -> result response
}.

(** ** Process state *)

Record message := { role : string; msg_content : string }.

Record state := {
  files : gmap string bytes;
  chat_store : gmap string (list message);
  trace : list event
}.

Definition set_files (f : gmap string bytes -> gmap string bytes) (s : state) : state :=
  {| files := f (files s); chat_store := chat_store s; trace := trace s |}.

Definition set_chat_store
    (f : gmap string (list message) -> gmap string (list message)) (s : state) : state :=
  {| files := files s; chat_store := f (chat_store s); trace := trace s |}.

Definition log (ev : event) (s : state) : state :=
  {| files := files s; chat_store := chat_store s; trace := trace s ++ [ev] |}.

(** ** State and exceptions *)

Definition M (A : Type) : Type := state -> result A * state.

Definition ret {A} (a : A) : M A := fun s => (Ok a, s).

Definition bind {A B} (m : M A) (k : A -> M B) : M B :=
  fun s =>
    match m s with
    | (Ok a, s') => k a s'
    | (Raise e, s') => (Raise e, s')
    end.

Definition raise {A} (msg : string) : M A := fun s => (Raise msg, s).

(** [try: m  except Exception as e: h e] *)
Definition try_except {A} (m : M A) (h : string -> M A) : M A :=
  fun s =>
    match m s with
    | (Ok a, s') => (Ok a, s')
    | (Raise e, s') => h e s'
    end.

(** Runs [m] and hands its outcome to the code after the [try] block, for
    handlers whose [except] clause returns from the function. *)
Definition attempt {A} (m : M A) : M (result A) :=
  fun s => let (r, s') := m s in (Ok r, s').

Definition lift {A} (r : result A) : M A := fun s => (r, s).

(** A call to a provider: logged, then answered by the world. *)
Definition call {A} (ev : event) (answer : result A) : M A :=
  fun s => (answer, log ev s).

Declare Scope py_scope.
Delimit Scope py_scope with py.
Notation "'let*' x ':=' m 'in' k" := (bind m (fun x => k))
  (at level 10, x name, m at level 100, k at level 200) : py_scope.
Open Scope py_scope.

(** ** Files and time *)

Definition no_such_file (path : string) : string :=
  "[Errno 2] No such file or directory: '" +:+ path +:+ "'".

(** [open(path, "wb")] followed by writing [data]. *)
Definition write_file (path : string) (data : bytes) : M unit :=
  fun s => (Ok tt, set_files (insert path data) s).

(** [open(path, "rb")] and reading it whole. *)
Definition read_file (path : string) : M bytes :=
  fun s =>
    match files s !! path with
    | Some data => (Ok data, s)
    | None => (Raise (no_such_file path), s)
    end.

Definition os_remove (path : string) : M unit :=
  fun s =>
    match files s !! path with
    | Some _ => (Ok tt, set_files (delete path) s)
    | None => (Raise (no_such_file path), s)
    end.

Definition os_path_exists (path : string) : M bool :=
  fun s => (Ok (bool_decide (is_Some (files s !! path))), s).

(** [f"temp_{int(time.time())}.webm"] *)
Definition temp_name (w : world) : string :=
  "temp_" +:+ pretty (now w) +:+ ".webm".

Definition time_sleep (secs : Z) : M unit :=
  if secs <? 0 then raise "sleep length must be non-negative"
  else fun s => (Ok tt, log (EvSleep secs) s).

(** ** Helper clients of [main.py] *)

Definition FALLBACK_AUDIO_URL : string := "/static/fallback.mp3".

Definition ok_status (code : Z) : bool := (code =? 200) || (code =? 201).

(** The part of [upload_to_assemblyai] that follows [open(file_path, "rb")],
    on the bytes [f] of the opened file. *)
Definition upload_request (w : world) (f : bytes) : M (option string) :=
  let* resp := call (EvUpload f) (upload_endpoint w f) in
  if negb (ok_status (resp_status_code resp)) then
    raise ("AssemblyAI upload failed: " +:+ pretty (resp_status_code resp)
           +:+ " " +:+ resp_text resp)
  else
    let* j := lift (resp_json resp) in
    lift (py_get j "upload_url").

Definition upload_to_assemblyai (w : world) (file_path : string) : M (option string) :=
  let* f := read_file file_path in
  upload_request w f.

Definition start_transcription (w : world) (upload_url : option string) : M (option string) :=
  let* resp := call (EvTranscript upload_url) (transcript_endpoint w upload_url) in
  if negb (ok_status (resp_status_code resp)) then
    raise ("AssemblyAI start transcription failed: " +:+ pretty (resp_status_code resp)
           +:+ " " +:+ resp_text resp)
  else
    let* j := lift (resp_json resp) in
    lift (py_get j "id").

Definition transcript_url (transcript_id : option string) : string :=
  "https://api.assemblyai.com/v2/transcript/" +:+ py_str transcript_id.

(** The body of [for _ in range(max_tries)], with [tries] iterations left
    and [i] the number already made. *)
Fixpoint poll_loop (w : world) (poll_url : string) (interval : Z)
    (tries i : nat) : M string :=
  match tries with
  | O => raise "Transcription timed out"
  | S tries' =>
      let* r := call (EvPoll poll_url) (poll_endpoint w poll_url i) in
      if negb (resp_status_code r =? 200) then
        raise ("AssemblyAI poll failed: " +:+ pretty (resp_status_code r)
               +:+ " " +:+ resp_text r)
      else
        let* j := lift (resp_json r) in
        let* status := lift (py_get j "status") in
        if bool_decide (status = Some "completed") then
          let* t := lift (py_get j "text") in
          ret (default "" t)
        else if bool_decide (status = Some "error") then
          let* err := lift (py_get j "error") in
          raise ("AssemblyAI transcription error: " +:+ py_str err)
        else
          let* _ := time_sleep interval in
          poll_loop w poll_url interval tries' (S i)
  end.

Definition poll_transcription (w : world) (transcript_id : option string)
    (max_tries interval : Z) : M string :=
  poll_loop w (transcript_url transcript_id) interval (Z.to_nat max_tries) 0.

(** [len(text)] and [text[:n]] for [n >= 0]. *)
Definition len (text : string) : Z := Z.of_nat (String.length text).

Definition slice_to (n : Z) (text : string) : string :=
  substring 0 (Z.to_nat n) text.

Definition gemini_generate (w : world) (prompt : string) : M string :=
  match gemini_client w with
  | None => raise "Gemini client not initialized (GEMINI_API_KEY missing)"
  | Some client => call (EvGenerate prompt) (client prompt)
  end.

Definition get_murf_voice_id (w : world) : M (option string) :=
  let* r := call EvVoices (voices_endpoint w) in
  if negb (resp_status_code r =? 200) then
    raise ("Failed to fetch Murf voices: " +:+ pretty (resp_status_code r)
           +:+ " " +:+ resp_text r)
  else
    let* voices := lift (resp_json r) in
    match voices with
    | JArr (v :: _) => ret (v !! "voiceId")
    | _ => raise "Unexpected voices format from Murf"
    end.

Definition generate_murf_audio_and_save (w : world) (text : string)
    (out_path : string) : M string :=
  let text := if len text >? 3000 then slice_to 3000 text else text in
  let* voice_id := get_murf_voice_id w in
  let payload := {| voiceId := voice_id; payload_text := text; payload_format := "MP3" |} in
  let* r := call (EvSpeech payload) (speech_endpoint w payload) in
  if negb (ok_status (resp_status_code r)) then
    raise ("Murf TTS failed: " +:+ pretty (resp_status_code r) +:+ " " +:+ resp_text r)
  else
    let* j := lift (resp_json r) in
    let* audio_url := lift (py_get j "audioFile") in
    if negb (truthy audio_url) then raise "Murf returned no audioFile URL"
    else
      let* audio_data :=
        call (EvDownload (py_str audio_url)) (download_endpoint w (py_str audio_url)) in
      if negb (resp_status_code audio_data =? 200) then
        raise ("Failed to download Murf audio: " +:+ pretty (resp_status_code audio_data))
      else
        let* _ := write_file out_path (resp_content audio_data) in
        ret out_path.

(** ** The chat history store *)

(** [if session_id not in chat_store: chat_store[session_id] = []] *)
Definition chat_store_init (session_id : string) : M unit :=
  fun s =>
    match chat_store s !! session_id with
    | Some _ => (Ok tt, s)
    | None => (Ok tt, set_chat_store (insert session_id []) s)
    end.

(** [chat_store[session_id].append(m)]; a missing key is a [KeyError]. *)
Definition chat_store_append (session_id : string) (m : message) : M unit :=
  fun s =>
    match chat_store s !! session_id with
    | Some h => (Ok tt, set_chat_store (insert session_id (h ++ [m])) s)
    | None => (Raise ("'" +:+ session_id +:+ "'"), s)
    end.

Definition chat_store_get (session_id : string) : M (list message) :=
  fun s =>
    match chat_store s !! session_id with
    | Some h => (Ok h, s)
    | None => (Raise ("'" +:+ session_id +:+ "'"), s)
    end.

(** ** String methods *)

Fixpoint str_map (f : ascii -> ascii) (s : string) : string :=
  match s with
  | EmptyString => EmptyString
  | String c r => String (f c) (str_map f r)
  end.

Definition in_range (lo hi : nat) (c : ascii) : bool :=
  let n := nat_of_ascii c in (lo <=? n)%nat && (n <=? hi)%nat.

Definition upper (c : ascii) : ascii :=
  if in_range 97 122 c then ascii_of_nat (nat_of_ascii c - 32) else c.

Definition lower (c : ascii) : ascii :=
  if in_range 65 90 c then ascii_of_nat (nat_of_ascii c + 32) else c.

(** [s.capitalize()], on the ASCII letters (the handlers apply it to role
    names only). *)
Definition capitalize (s : string) : string :=
  match s with
  | EmptyString => EmptyString
  | String c r => String (upper c) (str_map lower r)
  end.

(** [str.isspace] on one code point below 256. *)
Definition isspace (c : ascii) : bool :=
  in_range 9 13 c || in_range 28 32 c
  || (nat_of_ascii c =? 133)%nat || (nat_of_ascii c =? 160)%nat.

Fixpoint lstrip (s : string) : string :=
  match s with
  | EmptyString => EmptyString
  | String c r => if isspace c then lstrip r else s
  end.

Definition rstrip (s : string) : string := String.rev (lstrip (String.rev s)).

Definition strip (s : string) : string := rstrip (lstrip s).

(** [sub in s] *)
Definition contains (sub s : string) : bool :=
  bool_decide (is_Some (index 0 sub s)).

(** ** Responses of the handlers *)

(** A JSON body: the fields of the dict literal in order, each a string or
    [None]. *)
Record http_response := {
  status : Z;
  body : list (string * option string)
}.

Definition JSONResponse (status_code : Z) (content : list (string * option string))
    : http_response :=
  {| status := status_code; body := content |}.

(** A handler that returns a dict answers 200 with that dict. *)
Definition json_ok (content : list (string * option string)) : http_response :=
  JSONResponse 200 content.

(** [body[k]] *)
Fixpoint field (k : string) (content : list (string * option string))
    : option (option string) :=
  match content with
  | [] => None
  | (k', v) :: rest => if String.eqb k k' then Some v else field k rest
  end.

Definition try_remove (path : string) : M unit :=
  try_except (os_remove path) (fun _ => ret tt).

(** [x or y or ""] *)
Definition or_empty (x y : option string) : string :=
  default "" (py_or (py_or x y) (Some "")).

(** ** Handlers of [main.py] *)

Definition fallback : string * option string := ("audio_file", Some FALLBACK_AUDIO_URL).

(** POST /gemini *)
Definition gemini_chat (w : world) (payload : gmap string string) : M http_response :=
  let prompt := or_empty (payload !! "prompt") (payload !! "text") in
  if String.eqb prompt "" then
    ret (JSONResponse 400 [("error", Some "Prompt or text field is required")])
  else
    try_except
      (let* text := gemini_generate w prompt in
       ret (json_ok [("response", Some text)]))
      (fun e =>
         ret (JSONResponse 500 [("error", Some "Failed to generate response");
                                ("details", Some e); fallback])).

(** How the polling loop written inside [echo_bot] is left. *)
Inductive loop_exit :=
| Break (transcript_text : string)
| Return (r : http_response)
| Exhausted.

(** The [for _ in range(20)] loop of [echo_bot]; [on_error] is the response
    returned from inside the loop on status [error]. *)
Fixpoint echo_poll_loop (w : world) (temp_filename poll_url : string)
    (on_error : option string -> http_response) (tries i : nat) : M loop_exit :=
  match tries with
  | O => ret Exhausted
  | S tries' =>
      let* poll_resp := call (EvPoll poll_url) (poll_endpoint w poll_url i) in
      let* poll_json := lift (resp_json poll_resp) in
      let* st := lift (py_get poll_json "status") in
      if bool_decide (st = Some "completed") then
        let* t := lift (py_get poll_json "text") in
        ret (Break (default "" t))
      else if bool_decide (st = Some "error") then
        let* _ := os_remove temp_filename in
        let* err := lift (py_get poll_json "error") in
        ret (Return (on_error err))
      else
        let* _ := time_sleep 3 in
        echo_poll_loop w temp_filename poll_url on_error tries' (S i)
  end.

(** [voices[0]] on a parsed body. *)
Definition first_voice (voices : jval) : result (gmap string string) :=
  match voices with
  | JArr (v :: _) => Ok v
  | JArr [] => Raise "list index out of range"
  | JObj _ => Raise "0"
  end.

(** POST /tts/echo/ *)
Definition echo_bot (w : world) (file : bytes) : M http_response :=
  try_except
    (let temp_filename := temp_name w in
     let* _ := write_file temp_filename file in
     let* f := read_file temp_filename in
     let* upload_resp := call (EvUpload f) (upload_endpoint w f) in
     if negb (ok_status (resp_status_code upload_resp)) then
       let* _ := os_remove temp_filename in
       ret (JSONResponse 500 [("error", Some "Upload failed");
                              ("details", Some (resp_text upload_resp)); fallback])
     else
     let* j := lift (resp_json upload_resp) in
     let* upload_url := lift (py_get j "upload_url") in
     if negb (truthy upload_url) then
       let* _ := os_remove temp_filename in
       ret (JSONResponse 500 [("error", Some "Upload URL missing"); fallback])
     else
     let* transcript_resp :=
       call (EvTranscript upload_url) (transcript_endpoint w upload_url) in
     if negb (ok_status (resp_status_code transcript_resp)) then
       let* _ := os_remove temp_filename in
       ret (JSONResponse 500 [("error", Some "Transcription start failed");
                              ("details", Some (resp_text transcript_resp)); fallback])
     else
     let* j := lift (resp_json transcript_resp) in
     let* transcript_id := lift (py_get j "id") in
     if negb (truthy transcript_id) then
       let* _ := os_remove temp_filename in
       ret (JSONResponse 500 [("error", Some "Transcript ID missing"); fallback])
     else
     let poll_url := transcript_url transcript_id in
     let* polled :=
       echo_poll_loop w temp_filename poll_url
         (fun err => JSONResponse 500 [("error", err); fallback]) 20 0 in
     match polled with
     | Return r => ret r
     | _ =>
       let transcript_text :=
         match polled with Break t => Some t | _ => None end in
       let* _ := os_remove temp_filename in
       if negb (truthy transcript_text) then
         ret (JSONResponse 504 [("error", Some "Transcription timed out."); fallback])
       else
       let transcript_text := py_str transcript_text in
       let* murf :=
         try_except
           (let* voices_resp := call EvVoices (voices_endpoint w) in
            if negb (resp_status_code voices_resp =? 200) then
              ret (Some (JSONResponse 500 [("error", Some "Failed to fetch voices");
                                           ("details", Some (resp_text voices_resp));
                                           fallback]))
            else
            let* voices := lift (resp_json voices_resp) in
            let* v := lift (first_voice voices) in
            let murf_payload := {| voiceId := v !! "voiceId";
                                   payload_text := transcript_text;
                                   payload_format := "MP3" |} in
            let* murf_response :=
              call (EvSpeech murf_payload) (speech_endpoint w murf_payload) in
            if negb (ok_status (resp_status_code murf_response)) then
              ret (Some (JSONResponse 500 [("error", Some "Murf API failed");
                                           ("details", Some (resp_text murf_response));
                                           fallback]))
            else
            let* murf_json := lift (resp_json murf_response) in
            let* audio_url := lift (py_get murf_json "audioFile") in
            if negb (truthy audio_url) then
              ret (Some (JSONResponse 500 [("error", Some "No audio file returned");
                                           fallback]))
            else
            let* audio_data :=
              call (EvDownload (py_str audio_url))
                   (download_endpoint w (py_str audio_url)) in
            let* _ := write_file "murf_output.mp3" (resp_content audio_data) in
            ret None)
           (fun e =>
              ret (Some (JSONResponse 500 [("error", Some "Murf TTS error");
                                           ("details", Some e); fallback]))) in
       match murf with
       | Some r => ret r
       | None =>
           ret (json_ok [("audio_file", Some "/play-audio");
                         ("transcript", Some transcript_text)])
       end
     end)
    (fun e =>
       ret (JSONResponse 500 [("error", Some "Unexpected error");
                              ("details", Some e); fallback])).

Definition stt_failed (e : string) : http_response :=
  JSONResponse 500 [("error", Some "STT failed"); ("details", Some e); fallback].

Definition llm_failed (e : string) : http_response :=
  JSONResponse 500 [("error", Some "LLM failed"); ("details", Some e); fallback].

Definition tts_failed (e : string) : http_response :=
  JSONResponse 500 [("error", Some "TTS failed"); ("details", Some e); fallback].

(** POST /echobot/voice/{session_id} *)
Definition echobot_voice (w : world) (session_id : string) (file : bytes)
    : M http_response :=
  try_except
    (let temp_filename := temp_name w in
     let* _ := write_file temp_filename file in
     let* stt :=
       attempt
         (let* upload_url := upload_to_assemblyai w temp_filename in
          let* transcript_id := start_transcription w upload_url in
          poll_transcription w transcript_id 60 3) in
     match stt with
     | Raise e =>
         let* _ := try_remove temp_filename in
         ret (stt_failed e)
     | Ok transcript_text =>
         let* tts :=
           attempt (generate_murf_audio_and_save w transcript_text "murf_output.mp3") in
         match tts with
         | Raise e =>
             let* _ := try_remove temp_filename in
             ret (tts_failed e)
         | Ok _ =>
             let* _ := try_remove temp_filename in
             ret (json_ok [("transcript", Some transcript_text);
                           ("audio_file", Some "/play-audio")])
         end
     end)
    (fun e => ret (JSONResponse 500 [("error", Some e); fallback])).

(** What [llm_query] reads of the incoming [Request]: the [content-type]
    header and the body as [await request.json()] parses it. *)
Record request := {
  req_content_type : option string;
  req_json : result jval
}.

(** POST /llm/query *)
Definition llm_query (w : world) (request : request) (file : option bytes)
    : M http_response :=
  try_except
    (let content_type := default "" (req_content_type request) in
     if bool_decide (file <> None) || contains "multipart/form-data" content_type then
       match file with
       | None =>
           ret (JSONResponse 400 [("error", Some "No audio file provided"); fallback])
       | Some file =>
           let temp_filename := temp_name w in
           let* _ := write_file temp_filename file in
           let* stt :=
             attempt
               (let* upload_url := upload_to_assemblyai w temp_filename in
                let* transcript_id := start_transcription w upload_url in
                poll_transcription w transcript_id 60 3) in
           match stt with
           | Raise e =>
               let* _ := try_remove temp_filename in
               ret (stt_failed e)
           | Ok transcript_text =>
               let* llm :=
                 attempt (let* r := gemini_generate w transcript_text in ret (strip r)) in
               match llm with
               | Raise e =>
                   let* _ := try_remove temp_filename in
                   ret (llm_failed e)
               | Ok llm_reply =>
                   let* tts :=
                     attempt (generate_murf_audio_and_save w llm_reply "murf_output.mp3") in
                   match tts with
                   | Raise e =>
                       let* _ := try_remove temp_filename in
                       ret (tts_failed e)
                   | Ok _ =>
                       let* _ := try_remove temp_filename in
                       ret (json_ok [("transcript", Some transcript_text);
                                     ("llm_response", Some llm_reply);
                                     ("audio_file", Some "/play-audio")])
                   end
               end
           end
       end
     else
       let* data := lift (req_json request) in
       let* t := lift (py_get data "text") in
       let* p := lift (py_get data "prompt") in
       let prompt := or_empty t p in
       if String.eqb prompt "" then
         ret (JSONResponse 400 [("error", Some "Text or prompt field is required");
                                fallback])
       else
         try_except
           (let* text := gemini_generate w prompt in
            ret (json_ok [("response", Some text)]))
           (fun e => ret (JSONResponse 500 [("error", Some e); fallback])))
    (fun e => ret (JSONResponse 500 [("error", Some e); fallback])).

(** POST /voice/text *)
Definition voice_text (w : world) (payload : gmap string string) : M http_response :=
  try_except
    (let text := or_empty (payload !! "text") (payload !! "prompt") in
     if String.eqb text "" then
       ret (JSONResponse 400 [("error", Some "Text is required"); fallback])
     else
       try_except
         (let* _ := generate_murf_audio_and_save w text "murf_output.mp3" in
          ret (json_ok [("reply", Some text); ("audio_file", Some "/play-audio")]))
         (fun e => ret (tts_failed e)))
    (fun e => ret (JSONResponse 500 [("error", Some e); fallback])).

Definition SYSTEM_INSTRUCTION : string :=
  "You are a helpful assistant. Continue the conversation based on the history below.".

(** [f"{m['role'].capitalize()}: {m['content']}"] *)
Definition history_line (m : message) : string :=
  capitalize (role m) +:+ ": " +:+ msg_content m.

(** The prompt [gemini_voice] builds from a session's history. *)
Definition render (history : list message) : string :=
  let history_text := String.concat nl (map history_line history) in
  SYSTEM_INSTRUCTION +:+ nl +:+ nl +:+ history_text +:+ nl +:+ "Assistant:".

Definition CANNED_REPLY : string :=
  "I'm having trouble generating a response right now.".

(** POST /gemini/voice/{session_id} *)
Definition gemini_voice (w : world) (session_id : string) (file : bytes)
    : M http_response :=
  try_except
    (let temp_filename := temp_name w in
     let* _ := write_file temp_filename file in
     let* stt :=
       attempt
         (let* upload_url := upload_to_assemblyai w temp_filename in
          let* transcript_id := start_transcription w upload_url in
          poll_transcription w transcript_id 60 3) in
     match stt with
     | Raise e =>
         let* _ := try_remove temp_filename in
         ret (stt_failed e)
     | Ok transcript_text =>
         let* _ := chat_store_init session_id in
         let* _ := chat_store_append session_id
                     {| role := "user"; msg_content := transcript_text |} in
         let* history := chat_store_get session_id in
         let full_prompt := render history in
         let* llm :=
           attempt (let* r := gemini_generate w full_prompt in ret (strip r)) in
         match llm with
         | Raise e =>
             let* _ := chat_store_append session_id
                         {| role := "assistant"; msg_content := CANNED_REPLY |} in
             let* _ := try_remove temp_filename in
             ret (llm_failed e)
         | Ok llm_reply =>
             let* _ := chat_store_append session_id
                         {| role := "assistant"; msg_content := llm_reply |} in
             let* tts :=
               attempt (generate_murf_audio_and_save w llm_reply "murf_output.mp3") in
             match tts with
             | Raise e =>
                 let* _ := try_remove temp_filename in
                 ret (tts_failed e)
             | Ok _ =>
                 let* _ := try_remove temp_filename in
                 ret (json_ok [("transcript", Some transcript_text);
                               ("reply", Some llm_reply);
                               ("audio_file", Some "/play-audio")])
             end
         end
     end)
    (fun e => ret (JSONResponse 500 [("error", Some e); fallback])).

(** GET /play-audio: the shared artifact, or 404 with the fallback. *)
Definition play_audio : M (bytes + http_response) :=
  let* present := os_path_exists "murf_output.mp3" in
  if present then
    let* data := read_file "murf_output.mp3" in ret (inl data)
  else
    ret (inr (JSONResponse 404 [("error", Some "Audio file not found"); fallback])).

(** ** The earlier echo handler of [templates/main.py] *)

Module Templates.

(** POST /tts/echo/ : one voice, no fallback reference, 200 only. *)
Definition echo_bot (w : world) (file : bytes) : M http_response :=
  try_except
    (let temp_filename := temp_name w in
     let* _ := write_file temp_filename file in
     let* f := read_file temp_filename in
     let* upload_resp := call (EvUpload f) (upload_endpoint w f) in
     if negb (resp_status_code upload_resp =? 200) then
       let* _ := os_remove temp_filename in
       ret (JSONResponse 500 [("error", Some "Upload failed");
                              ("details", Some (resp_text upload_resp))])
     else
     let* j := lift (resp_json upload_resp) in
     let* upload_url := lift (py_get j "upload_url") in
     if negb (truthy upload_url) then
       let* _ := os_remove temp_filename in
       ret (JSONResponse 500 [("error", Some "Upload URL missing in response")])
     else
     let* transcript_resp :=
       call (EvTranscript upload_url) (transcript_endpoint w upload_url) in
     if negb (resp_status_code transcript_resp =? 200) then
       let* _ := os_remove temp_filename in
       ret (JSONResponse 500 [("error", Some "Transcription start failed");
                              ("details", Some (resp_text transcript_resp))])
     else
     let* j := lift (resp_json transcript_resp) in
     let* transcript_id := lift (py_get j "id") in
     if negb (truthy transcript_id) then
       let* _ := os_remove temp_filename in
       ret (JSONResponse 500 [("error", Some "Transcript ID missing in response")])
     else
     let poll_url := transcript_url transcript_id in
     let* polled :=
       echo_poll_loop w temp_filename poll_url
         (fun err => JSONResponse 500 [("error", err)]) 20 0 in
     match polled with
     | Return r => ret r
     | _ =>
       let transcript_text :=
         match polled with Break t => Some t | _ => None end in
       let* _ := os_remove temp_filename in
       if negb (truthy transcript_text) then
         ret (JSONResponse 504 [("error", Some "Transcription timed out.")])
       else
       let transcript_text := py_str transcript_text in
       let murf_payload := {| voiceId := Some "en-US-male";
                              payload_text := transcript_text;
                              payload_format := "MP3" |} in
       let* murf_response :=
         call (EvSpeech murf_payload) (speech_endpoint w murf_payload) in
       if negb (resp_status_code murf_response =? 200) then
         ret (JSONResponse 500 [("error", Some "Murf API failed");
                                ("details", Some (resp_text murf_response))])
       else
       let* murf_json := lift (resp_json murf_response) in
       let* audio_url := lift (py_get murf_json "audioFile") in
       if negb (truthy audio_url) then
         ret (JSONResponse 500 [("error", Some "No audio file returned from Murf")])
       else
       let* audio_data :=
         call (EvDownload (py_str audio_url)) (download_endpoint w (py_str audio_url)) in
       let* _ := write_file "murf_output.mp3" (resp_content audio_data) in
       ret (json_ok [("audio_file", Some "/play-audio");
                     ("transcript", Some transcript_text)])
     end)
    (fun e =>
       ret (JSONResponse 500 [("error", Some "Unexpected error"); ("details", Some e)])).

End Templates.

(** ** Vocabulary of the statements *)

(** The state after the calls [evs] were made and nothing else changed. *)
Definition logs (evs : list event) (s : state) : state :=
  {| files := files s; chat_store := chat_store s; trace := trace s ++ evs |}.

Definition is_poll (ev : event) : bool :=
  match ev with EvPoll _ => true | _ => false end.

(** Number of status requests in a trace. *)
Definition polls (tr : list event) : nat := length (filter is_poll tr).

(** The [status] field of a status reply that came back with HTTP 200 and
    a JSON object. *)
Definition job_status (r : result response) : option (option string) :=
  match r with
  | Ok resp =>
      if resp_status_code resp =? 200 then
        match resp_json resp with
        | Ok (JObj o) => Some (o !! "status")
        | _ => None
        end
      else None
  | Raise _ => None
  end.

(** A field of such a reply. *)
Definition job_field (k : string) (r : result response) : option string :=
  match r with
  | Ok resp =>
      match resp_json resp with
      | Ok (JObj o) => o !! k
      | _ => None
      end
  | Raise _ => None
  end.

(** HTTP 200 with a status that is neither [completed] nor [error]. *)
Definition pending (r : result response) : bool :=
  match job_status r with
  | Some st =>
      negb (bool_decide (st = Some "completed")) && negb (bool_decide (st = Some "error"))
  | None => false
  end.

(** One round of a polling loop that goes on: the request, then the sleep. *)
Definition rounds (poll_url : string) (interval : Z) (k : nat) : list event :=
  concat (replicate k [EvPoll poll_url; EvSleep interval]).

(** The state of a polling loop on job [transcript_id] after [k] rounds. *)
Definition after_rounds (transcript_id : option string) (interval : Z) (k : nat)
    (s : state) : state :=
  logs (rounds (transcript_url transcript_id) interval k) s.

(** ** Sample providers

    Concrete worlds on which the handlers are run below. *)

Definition reply (code : Z) (txt : string) (fields : list (string * string)) : response :=
  {| resp_status_code := code; resp_text := txt; resp_content := [];
     resp_json := Ok (JObj (list_to_map fields)) |}.

Definition voices_reply : response :=
  {| resp_status_code := 200; resp_text := ""; resp_content := [];
     resp_json := Ok (JArr [ {[ "voiceId" := "en-US-natalie" ]} ]) |}.

Definition audio_reply (code : Z) : response :=
  {| resp_status_code := code; resp_text := ""; resp_content := [Byte.x49; Byte.x44; Byte.x33];
     resp_json := Raise "Expecting value: line 1 column 1 (char 0)" |}.

(** The fresh process: no file, no history, nothing called yet. *)
Definition fresh : state := {| files := ∅; chat_store := ∅; trace := [] |}.

(** Every provider works: the job is [processing] for [k] polls and then
    [completed] with [t]; the model answers [r] to every prompt. *)
Definition demo_world (k : nat) (t r : string) : world :=
  {| now := 1723000000;
     upload_endpoint := fun _ => Ok (reply 200 "" [("upload_url", "https://cdn.example/u1")]);
     transcript_endpoint := fun _ => Ok (reply 200 "" [("id", "job1")]);
     poll_endpoint := fun _ i =>
       if (i <? k)%nat then Ok (reply 200 "" [("status", "processing")])
       else Ok (reply 200 "" [("status", "completed"); ("text", t)]);
     gemini_client := Some (fun _ => Ok r);
     voices_endpoint := Ok voices_reply;
     speech_endpoint := fun _ => Ok (reply 200 "" [("audioFile", "https://murf.example/a.mp3")]);
     download_endpoint := fun _ => Ok (audio_reply 200) |}.

(** [w] with another answer to the status requests. *)
Definition with_poll (f : string -> nat -> result response) (w : world) : world :=
  {| now := now w; upload_endpoint := upload_endpoint w;
     transcript_endpoint := transcript_endpoint w; poll_endpoint := f;
     gemini_client := gemini_client w; voices_endpoint := voices_endpoint w;
     speech_endpoint := speech_endpoint w; download_endpoint := download_endpoint w |}.

(** The job fails at poll [k] with detail [d]. *)
Definition failing_job (k : nat) (d : string) : world :=
  with_poll (fun _ i =>
               if (i <? k)%nat then Ok (reply 200 "" [("status", "queued")])
               else Ok (reply 200 "" [("status", "error"); ("error", d)]))
            (demo_world 0 "" "").

(** The status endpoint answers 503 at poll [k]. *)
Definition flaky_poll (k : nat) : world :=
  with_poll (fun _ i =>
               if (i =? k)%nat then Ok (reply 503 "Service Unavailable" [])
               else Ok (reply 200 "" [("status", "processing")]))
            (demo_world 0 "" "").

(** The texts of the speech-generation requests in a trace, in order. *)
Definition speech_texts (tr : list event) : list string :=
  omap (fun ev => match ev with EvSpeech p => Some (payload_text p) | _ => None end) tr.

(** Five characters, [n] times over. *)
Definition long_text (n : nat) : string :=
  String.concat "" (replicate n "abcde").

(** A field that is missing or holds the empty string. *)
Definition blank (x : option string) : Prop := x = None \/ x = Some "".

(** A JSON request without attachment. *)
Definition json_request (data : gmap string string) : request :=
  {| req_content_type := Some "application/json"; req_json := Ok (JObj data) |}.

(** What a computation returns and which calls it makes when started in
    the fresh process.  For the provider clients, which read nothing of the
    state, these are its result and its calls in every state. *)
Definition outcome {A} (m : M A) : result A := fst (m fresh).

Definition calls {A} (m : M A) : list event := trace (snd (m fresh)).

Definition oblivious {A} (m : M A) : Prop :=
  forall s, m s = (outcome m, logs (calls m) s).

(** The speech-to-text block of the handlers, on the bytes of the saved
    upload. *)
Definition stt (w : world) (file : bytes) : M string :=
  let* upload_url := upload_request w file in
  let* transcript_id := start_transcription w upload_url in
  poll_transcription w transcript_id 60 3.

Definition tts (w : world) (text : string) : M string :=
  generate_murf_audio_and_save w text "murf_output.mp3".

(** The audio that [tts] leaves at [murf_output.mp3], if it writes any. *)
Definition artifact (w : world) (text : string) : option bytes :=
  files (snd (tts w text fresh)) !! "murf_output.mp3".

Definition with_artifact (a : option bytes) (s : state) : state :=
  match a with
  | Some data => set_files (insert "murf_output.mp3" data) s
  | None => s
  end.

(** The upload saved under its temporary name, and that file removed. *)
Definition saved (w : world) (file : bytes) (s : state) : state :=
  set_files (insert (temp_name w) file) s.

Definition cleaned (w : world) (s : state) : state :=
  set_files (delete (temp_name w)) s.

(** The state a pipeline leaves behind: the upload was saved, the calls
    [evs] were made, the audio [a] (if any) was written, and the upload was
    removed again. *)
Definition settled (w : world) (file : bytes) (evs : list event) (a : option bytes)
    (s : state) : state :=
  cleaned w (with_artifact a (logs evs (saved w file s))).

Definition user_turn (content : string) : message :=
  {| role := "user"; msg_content := content |}.

Definition assistant_turn (content : string) : message :=
  {| role := "assistant"; msg_content := content |}.

(** The history of a session; a session never seen has none. *)
Definition history (session_id : string) (s : state) : list message :=
  default [] (chat_store s !! session_id).

(** The state with [turns] appended to the history of [session_id]. *)
Definition recorded (session_id : string) (turns : list message) (s : state) : state :=
  set_chat_store (insert session_id (history session_id s ++ turns)) s.

(** What the framework sends back for a handler's result; an exception the
    handler let through is a bare 500. *)
Definition respond (m : M http_response) (s : state) : http_response * state :=
  match m s with
  | (Ok r, s') => (r, s')
  | (Raise _, s') => (JSONResponse 500 [], s')
  end.

(** Requests to POST /gemini/voice/{session_id}, served one after the
    other; each comes with its upload and with what the providers answer
    while it is served. *)
Fixpoint session_requests (session_id : string) (reqs : list (world * bytes))
    (s : state) : list http_response * state :=
  match reqs with
  | [] => ([], s)
  | (w, file) :: rest =>
      let (r, s1) := respond (gemini_voice w session_id file) s in
      let (rs, s2) := session_requests session_id rest s1 in
      (r :: rs, s2)
  end.

(** The body of a successful session-voice-chat response. *)
Definition chat_body (turn : string * string) : list (string * option string) :=
  [("transcript", Some turn.1); ("reply", Some turn.2);
   ("audio_file", Some "/play-audio")].

(** The two turns one exchange adds, and the two lines they render to. *)
Definition exchange (turn : string * string) : list message :=
  [user_turn turn.1; assistant_turn turn.2].

Definition exchange_lines (turn : string * string) : list string :=
  ["User: " +:+ turn.1; "Assistant: " +:+ turn.2].

(** The model is unreachable: transcription works, the client raises. *)
Definition model_down (t : string) : world :=
  {| now := 1723000000;
     upload_endpoint := upload_endpoint (demo_world 0 t "");
     transcript_endpoint := transcript_endpoint (demo_world 0 t "");
     poll_endpoint := poll_endpoint (demo_world 0 t "");
     gemini_client := Some (fun _ => Raise "503 UNAVAILABLE");
     voices_endpoint := voices_endpoint (demo_world 0 t "");
     speech_endpoint := speech_endpoint (demo_world 0 t "");
     download_endpoint := download_endpoint (demo_world 0 t "") |}.

(** Two exchanges of one conversation. *)
Definition two_requests : list (world * bytes) :=
  [(demo_world 1 "what is the capital of France" " Paris. ", [Byte.x01]);
   (demo_world 0 "and of Italy" "Rome", [Byte.x02])].

(** The speech endpoint answers 500; everything else works. *)
Definition murf_down : world :=
  {| now := 1723000000;
     upload_endpoint := upload_endpoint (demo_world 0 "hello" "");
     transcript_endpoint := transcript_endpoint (demo_world 0 "hello" "");
     poll_endpoint := poll_endpoint (demo_world 0 "hello" "");
     gemini_client := gemini_client (demo_world 0 "hello" "");
     voices_endpoint := Ok voices_reply;
     speech_endpoint := fun _ => Ok (reply 500 "Internal Server Error" []);
     download_endpoint := download_endpoint (demo_world 0 "hello" "") |}.


(** An error answer of [main.py]: 500, an [error] field, and the fallback
    audio reference under [audio_file]. *)
Definition fallback_error (r : http_response) : Prop :=
  status r = 500
  /\ is_Some (field "error" (body r))
  /\ field "audio_file" (body r) = Some (Some FALLBACK_AUDIO_URL).

(** An error answer of [templates/main.py]: 500 or 504, an [error] field,
    and no [audio_file] key at all. *)
Definition bare_error (r : http_response) : Prop :=
  (status r = 500 \/ status r = 504)
  /\ is_Some (field "error" (body r))
  /\ field "audio_file" (body r) = None.

(** The catch-all answer of the earlier handler. *)
Definition unexpected (e : string) : http_response :=
  JSONResponse 500 [("error", Some "Unexpected error"); ("details", Some e)].

(** The upload endpoint answers 500; everything else works. *)
Definition upload_down : world :=
  {| now := 1723000000;
     upload_endpoint := fun _ => Ok (reply 500 "Internal Server Error" []);
     transcript_endpoint := transcript_endpoint (demo_world 0 "hello" "");
     poll_endpoint := poll_endpoint (demo_world 0 "hello" "");
     gemini_client := gemini_client (demo_world 0 "hello" "");
     voices_endpoint := Ok voices_reply;
     speech_endpoint := speech_endpoint (demo_world 0 "hello" "");
     download_endpoint := download_endpoint (demo_world 0 "hello" "") |}.

(** Transcription and generation work, the speech endpoint answers 500. *)
Definition speech_down (t r : string) : world :=
  {| now := 1723000000;
     upload_endpoint := upload_endpoint (demo_world 0 t r);
     transcript_endpoint := transcript_endpoint (demo_world 0 t r);
     poll_endpoint := poll_endpoint (demo_world 0 t r);
     gemini_client := gemini_client (demo_world 0 t r);
     voices_endpoint := Ok voices_reply;
     speech_endpoint := fun _ => Ok (reply 500 "Internal Server Error" []);
     download_endpoint := download_endpoint (demo_world 0 t r) |}.

(** A JSON body that is an array, and a body that is no JSON at all. *)
Definition array_request : request :=
  {| req_content_type := Some "application/json"; req_json := Ok (JArr []) |}.

Definition garbage_request : request :=
  {| req_content_type := Some "text/plain";
     req_json := Raise "Expecting value: line 1 column 1 (char 0)" |}.

(** The calls a polling loop on [url] can make. *)
Definition poll_event (url : string) (interval : Z) (ev : event) : Prop :=
  ev = EvPoll url \/ ev = EvSleep interval.

(** The answer of GET /play-audio when there is no artifact. *)
Definition audio_not_found : http_response :=
  JSONResponse 404 [("error", Some "Audio file not found"); fallback].

(** What GET /play-audio serves from a given file system. *)
Definition served (s : state) : bytes + http_response :=
  match files s !! "murf_output.mp3" with
  | Some data => inl data
  | None => inr audio_not_found
  end.

(** A reply that came back with status 200 or 201. *)
Definition accepted (r : result response) : bool :=
  match r with
  | Ok resp => ok_status (resp_status_code resp)
  | Raise _ => false
  end.

(** The answer of [echo_bot] when its loop ends without a transcript. *)
Definition timed_out : http_response :=
  JSONResponse 504 [("error", Some "Transcription timed out."); fallback].

(** The calls [echo_bot] has made once polling got its answer at poll [k]. *)
Definition echo_stt_calls (file : bytes) (u id : string) (k : nat) : list event :=
  [EvUpload file; EvTranscript (Some u)]
  ++ rounds (transcript_url (Some id)) 3 k ++ [EvPoll (transcript_url (Some id))].

(** ** Basic facts about states and traces *)

Lemma logs_nil s : logs [] s = s.
Proof. destruct s; unfold logs; simpl. by rewrite app_nil_r. Qed.

Lemma log_logs ev s : log ev s = logs [ev] s.
Proof. reflexivity. Qed.

Lemma logs_logs e1 e2 s : logs e2 (logs e1 s) = logs (e1 ++ e2) s.
Proof. unfold logs; simpl. by rewrite app_assoc. Qed.

Lemma polls_app t1 t2 : polls (t1 ++ t2) = (polls t1 + polls t2)%nat.
Proof. unfold polls. by rewrite filter_app, length_app. Qed.

Lemma rounds_S url interval k :
  rounds url interval (S k) = [EvPoll url; EvSleep interval] ++ rounds url interval k.
Proof. reflexivity. Qed.

Lemma polls_rounds url interval k : polls (rounds url interval k) = k.
Proof.
  induction k as [|k IH]; [reflexivity|].
  rewrite rounds_S, polls_app, IH. reflexivity.
Qed.

(** ** The polling loop *)

Lemma pending_inv r :
  pending r = true ->
  exists resp o,
    r = Ok resp /\ resp_status_code resp = 200 /\ resp_json resp = Ok (JObj o)
    /\ o !! "status" <> Some "completed" /\ o !! "status" <> Some "error".
Proof.
  unfold pending, job_status. destruct r as [resp|]; [|done].
  destruct (resp_status_code resp =? 200) eqn:E; [|done].
  destruct (resp_json resp) as [[o|]|] eqn:Ej; try done.
  intros H. apply andb_true_iff in H as [H1 H2].
  apply negb_true_iff, bool_decide_eq_false in H1, H2.
  exists resp, o. repeat split; try done. by apply Z.eqb_eq.
Qed.

(** A poll that comes back pending costs one request and one sleep, and
    the loop goes on with one try less. *)
Lemma poll_loop_pending w url interval tries i s :
  0 <= interval ->
  pending (poll_endpoint w url i) = true ->
  poll_loop w url interval (S tries) i s =
  poll_loop w url interval tries (S i) (logs [EvPoll url; EvSleep interval] s).
Proof.
  intros Hi Hp. apply pending_inv in Hp as (resp & o & Hr & Hc & Hj & H1 & H2).
  simpl. unfold bind at 1, call. rewrite Hr, Hc. simpl.
  unfold bind at 1, lift. rewrite Hj. unfold bind at 1. simpl.
  rewrite !bool_decide_eq_false_2 by done.
  unfold bind at 1, time_sleep.
  destruct (interval <? 0) eqn:E; [apply Z.ltb_lt in E; lia|].
  by rewrite !log_logs, logs_logs.
Qed.

Lemma poll_loop_pending_prefix w url interval k : forall tries i s,
  0 <= interval ->
  (forall j, (j < k)%nat -> pending (poll_endpoint w url (i + j)) = true) ->
  poll_loop w url interval (k + tries) i s =
  poll_loop w url interval tries (i + k) (logs (rounds url interval k) s).
Proof.
  induction k as [|k IH]; intros tries i s Hi Hp.
  - by rewrite Nat.add_0_r, logs_nil.
  - change (S k + tries)%nat with (S (k + tries)).
    rewrite poll_loop_pending; [|done|].
    + rewrite IH; [|done|].
      * rewrite logs_logs, <- rounds_S. by replace (S i + k)%nat with (i + S k)%nat by lia.
      * intros j Hj. replace (S i + j)%nat with (i + S j)%nat by lia. apply Hp. lia.
    + specialize (Hp 0%nat). rewrite Nat.add_0_r in Hp. apply Hp. lia.
Qed.

(** C3. With status replies that all come back with HTTP 200, the first
    [k] of them neither [completed] nor [error]: if [k] is the whole budget
    [max_tries], [poll_transcription] makes exactly [max_tries] status
    requests and raises the timeout error; if reply [k] (within the budget)
    says [completed], it returns that reply's text; if it says [error], it
    raises an error carrying the provider's [error] field. *)
Theorem poll_transcription_outcomes (w : world) (transcript_id : option string)
    (max_tries interval : Z) (s : state) (k : nat) :
  0 <= interval ->
  (k <= Z.to_nat max_tries)%nat ->
  (forall i, (i < k)%nat ->
     pending (poll_endpoint w (transcript_url transcript_id) i) = true) ->
  (k = Z.to_nat max_tries ->
     poll_transcription w transcript_id max_tries interval s =
       (Raise "Transcription timed out", after_rounds transcript_id interval k s)
     /\ polls (trace (after_rounds transcript_id interval k s)) =
          (polls (trace s) + Z.to_nat max_tries)%nat)
  /\ ((k < Z.to_nat max_tries)%nat ->
      job_status (poll_endpoint w (transcript_url transcript_id) k) = Some (Some "completed") ->
      poll_transcription w transcript_id max_tries interval s =
        (Ok (default "" (job_field "text" (poll_endpoint w (transcript_url transcript_id) k))),
         log (EvPoll (transcript_url transcript_id)) (after_rounds transcript_id interval k s)))
  /\ ((k < Z.to_nat max_tries)%nat ->
      job_status (poll_endpoint w (transcript_url transcript_id) k) = Some (Some "error") ->
      poll_transcription w transcript_id max_tries interval s =
        (Raise ("AssemblyAI transcription error: "
                +:+ py_str (job_field "error" (poll_endpoint w (transcript_url transcript_id) k))),
         log (EvPoll (transcript_url transcript_id)) (after_rounds transcript_id interval k s))).
Proof.
  intros Hi Hk Hp. unfold poll_transcription, after_rounds.
  set (url := transcript_url transcript_id) in *.
  assert (Hpre : forall tries, poll_loop w url interval (k + tries) 0 s =
            poll_loop w url interval tries k (logs (rounds url interval k) s)).
  { intros tries. by rewrite poll_loop_pending_prefix. }
  split; [|split].
  - intros ->. split.
    + replace (Z.to_nat max_tries) with (Z.to_nat max_tries + 0)%nat at 1 by lia.
      by rewrite Hpre.
    + simpl. by rewrite polls_app, polls_rounds.
  - intros Hlt Hc.
    replace (Z.to_nat max_tries) with (k + S (Z.to_nat max_tries - S k))%nat by lia.
    rewrite Hpre. unfold job_status, job_field in *.
    destruct (poll_endpoint w url k) as [resp|] eqn:Er; [|done].
    destruct (resp_status_code resp =? 200) eqn:Ec; [|done].
    destruct (resp_json resp) as [[o|]|] eqn:Ej; try done.
    simpl. unfold bind at 1, call. rewrite Er, Ec. simpl.
    unfold bind at 1, lift. rewrite Ej. unfold bind at 1. simpl.
    injection Hc as ->. by rewrite bool_decide_eq_true_2.
  - intros Hlt Hc.
    replace (Z.to_nat max_tries) with (k + S (Z.to_nat max_tries - S k))%nat by lia.
    rewrite Hpre. unfold job_status, job_field in *.
    destruct (poll_endpoint w url k) as [resp|] eqn:Er; [|done].
    destruct (resp_status_code resp =? 200) eqn:Ec; [|done].
    destruct (resp_json resp) as [[o|]|] eqn:Ej; try done.
    simpl. unfold bind at 1, call. rewrite Er, Ec. simpl.
    unfold bind at 1, lift. rewrite Ej. unfold bind at 1. simpl.
    injection Hc as ->. rewrite bool_decide_eq_false_2 by done.
    by rewrite bool_decide_eq_true_2.
Qed.

Lemma poll_transcription_outcomes_witness :
  poll_transcription (demo_world 5 "hi" "") (Some "job1") 3 3 fresh =
    (Raise "Transcription timed out", after_rounds (Some "job1") 3 3 fresh)
  /\ polls (trace (after_rounds (Some "job1") 3 3 fresh)) = 3%nat
  /\ poll_transcription (demo_world 2 "hello there" "") (Some "job1") 60 3 fresh =
       (Ok "hello there",
        log (EvPoll (transcript_url (Some "job1"))) (after_rounds (Some "job1") 3 2 fresh))
  /\ poll_transcription (failing_job 1 "bad audio") (Some "job1") 60 3 fresh =
       (Raise "AssemblyAI transcription error: bad audio",
        log (EvPoll (transcript_url (Some "job1"))) (after_rounds (Some "job1") 3 1 fresh)).
Proof.
  destruct (poll_transcription_outcomes (demo_world 5 "hi" "") (Some "job1") 3 3 fresh 3)
    as (Ht & _ & _); [lia | simpl; lia | | ].
  { intros i Hi. destruct i as [|[|[|i]]]; [reflexivity | reflexivity | reflexivity | lia]. }
  destruct (poll_transcription_outcomes (demo_world 2 "hello there" "") (Some "job1") 60 3 fresh 2)
    as (_ & Hc & _); [lia | simpl; lia | | ].
  { intros i Hi. destruct i as [|[|i]]; [reflexivity | reflexivity | lia]. }
  destruct (poll_transcription_outcomes (failing_job 1 "bad audio") (Some "job1") 60 3 fresh 1)
    as (_ & _ & He); [lia | simpl; lia | | ].
  { intros i Hi. destruct i as [|i]; [reflexivity | lia]. }
  destruct Ht as [Ht Hn]; [reflexivity|].
  split; [exact Ht|]. split; [exact Hn|].
  split; [apply Hc; [simpl; lia | reflexivity]|].
  apply He; [simpl; lia | reflexivity].
Defined.

(** C10. When the status replies come back pending [k] times and reply
    [k], still within the budget, carries an HTTP status other than 200,
    [poll_transcription] raises the poll-failure error at that request: it
    has made [k + 1] requests, whatever is left of [max_tries]. *)
Theorem poll_transcription_http_failure (w : world) (transcript_id : option string)
    (max_tries interval : Z) (s : state) (k : nat) (resp : response) :
  0 <= interval ->
  (k < Z.to_nat max_tries)%nat ->
  (forall i, (i < k)%nat ->
     pending (poll_endpoint w (transcript_url transcript_id) i) = true) ->
  poll_endpoint w (transcript_url transcript_id) k = Ok resp ->
  resp_status_code resp <> 200 ->
  poll_transcription w transcript_id max_tries interval s =
    (Raise ("AssemblyAI poll failed: " +:+ pretty (resp_status_code resp)
            +:+ " " +:+ resp_text resp),
     log (EvPoll (transcript_url transcript_id)) (after_rounds transcript_id interval k s))
  /\ polls (trace (log (EvPoll (transcript_url transcript_id))
                       (after_rounds transcript_id interval k s))) =
       (polls (trace s) + k + 1)%nat.
Proof.
  intros Hi Hk Hp Hr Hc. unfold poll_transcription, after_rounds.
  set (url := transcript_url transcript_id) in *. split.
  - replace (Z.to_nat max_tries) with (k + S (Z.to_nat max_tries - S k))%nat by lia.
    rewrite poll_loop_pending_prefix by done. simpl.
    unfold bind at 1, call. rewrite Hr.
    apply Z.eqb_neq in Hc. by rewrite Hc.
  - simpl. by rewrite !polls_app, polls_rounds.
Qed.

Lemma poll_transcription_http_failure_witness :
  poll_transcription (flaky_poll 2) (Some "job1") 60 3 fresh =
    (Raise "AssemblyAI poll failed: 503 Service Unavailable",
     log (EvPoll (transcript_url (Some "job1"))) (after_rounds (Some "job1") 3 2 fresh))
  /\ polls (trace (log (EvPoll (transcript_url (Some "job1")))
                       (after_rounds (Some "job1") 3 2 fresh))) = 3%nat.
Proof.
  apply (poll_transcription_http_failure (flaky_poll 2) (Some "job1") 60 3 fresh 2
           (reply 503 "Service Unavailable" [])); [lia | simpl; lia | | reflexivity | simpl; lia].
  intros i Hi. destruct i as [|[|i]]; [reflexivity | reflexivity | lia].
Defined.

(** ** Speech synthesis *)

Lemma substring_0_length n : forall s,
  String.length (substring 0 n s) = (n `min` String.length s)%nat.
Proof.
  induction n as [|n IH]; intros [|c s]; simpl; try reflexivity.
  by rewrite IH.
Qed.

Lemma substring_0_split n : forall s, exists rest, s = substring 0 n s +:+ rest.
Proof.
  induction n as [|n IH]; intros [|c s]; simpl; try (by eexists).
  destruct (IH s) as [rest Hr]. exists rest.
  change (String c s = String c (substring 0 n s +:+ rest)). by f_equal.
Qed.

Lemma speech_texts_app t1 t2 : speech_texts (t1 ++ t2) = speech_texts t1 ++ speech_texts t2.
Proof. unfold speech_texts. apply omap_app. Qed.

(** What [generate_murf_audio_and_save] puts in the [text] field. *)
Lemma slice_cases (text : string) :
  let t := if len text >? 3000 then slice_to 3000 text else text in
  (len text <= 3000 /\ t = text)
  \/ (len text > 3000 /\ len t = 3000 /\ exists rest, text = t +:+ rest).
Proof.
  simpl. destruct (len text >? 3000) eqn:E.
  - right. apply Z.gtb_lt in E. split; [lia|]. split.
    + unfold len, slice_to in *. rewrite substring_0_length. lia.
    + apply substring_0_split.
  - left. split; [|done]. destruct (Z.gtb_spec (len text) 3000); [done | lia].
Qed.

Ltac case_step :=
  match goal with
  | |- context [match ?x with _ => _ end] =>
      lazymatch x with
      | context [match _ with _ => _ end] => fail
      | _ => destruct x eqn:?
      end
  end.

(** Looking the voice up costs one request and changes nothing else. *)
Lemma get_murf_voice_id_state w s : snd (get_murf_voice_id w s) = log EvVoices s.
Proof.
  unfold get_murf_voice_id, bind, call, lift, raise, ret.
  repeat (case_step; simpl; simplify_eq); reflexivity.
Qed.

(** C4. Whatever the providers answer, [generate_murf_audio_and_save] makes
    at most one speech-generation request, and exactly one once the voice
    is found; the text of that request is the input itself when the input
    has at most 3000 characters, and otherwise its prefix of exactly 3000
    characters. *)
Theorem synthesize_truncates (w : world) (text out_path : string) (s : state) :
  exists submitted : list string,
    speech_texts (trace (snd (generate_murf_audio_and_save w text out_path s))) =
      speech_texts (trace s) ++ submitted
    /\ (submitted = [] \/
        exists t, submitted = [t] /\
          ((len text <= 3000 /\ t = text)
           \/ (len text > 3000 /\ len t = 3000 /\ exists rest, text = t +:+ rest)))
    /\ (forall v s1, get_murf_voice_id w s = (Ok v, s1) -> length submitted = 1%nat).
Proof.
  pose proof (slice_cases text) as Hcases. simpl in Hcases.
  unfold generate_murf_audio_and_save.
  set (t := if len text >? 3000 then slice_to 3000 text else text) in *.
  unfold bind at 1.
  pose proof (get_murf_voice_id_state w s) as Hs1.
  destruct (get_murf_voice_id w s) as [[v|e] s1] eqn:Ev; simpl in Hs1; subst s1.
  - exists [t]. split; [|split; [right; by exists t | done]].
    unfold bind, call, lift, raise, ret, write_file.
    repeat case_step; simpl; rewrite ?speech_texts_app; simpl;
      by rewrite ?app_nil_r, <- ?app_assoc.
  - exists []. split; [|split; [by left | done]]. simpl.
    rewrite speech_texts_app. reflexivity.
Qed.

Lemma synthesize_truncates_witness :
  exists t rest,
    speech_texts (trace (snd (generate_murf_audio_and_save (demo_world 0 "" "")
                                (long_text 601) "murf_output.mp3" fresh))) = [t]
    /\ len t = 3000 /\ long_text 601 = t +:+ rest.
Proof.
  destruct (synthesize_truncates (demo_world 0 "" "") (long_text 601) "murf_output.mp3" fresh)
    as (sub & Heq & Hshape & Hone).
  specialize (Hone _ _ eq_refl).
  destruct Hshape as [-> | (t & -> & [[Hle _] | (_ & Hlen & rest & Hrest)])].
  - discriminate Hone.
  - exfalso. vm_compute in Hle. by apply Hle.
  - exists t, rest. by rewrite Heq.
Defined.

Example synthesize_short_text :
  speech_texts (trace (snd (generate_murf_audio_and_save (demo_world 0 "" "")
                              "hello" "murf_output.mp3" fresh))) = ["hello"].
Proof. reflexivity. Qed.

(** ** Input validation *)

Lemma or_empty_blank x y : blank x -> blank y -> or_empty x y = "".
Proof. by intros [-> | ->] [-> | ->]. Qed.

Lemma or_empty_first x y t : x = Some t -> t <> "" -> or_empty x y = t.
Proof.
  intros -> Hne. unfold or_empty, py_or, truthy.
  apply String.eqb_neq in Hne. rewrite Hne. simpl. by rewrite Hne.
Qed.

Lemma or_empty_second x y t : blank x -> y = Some t -> t <> "" -> or_empty x y = t.
Proof.
  intros Hx -> Hne. unfold or_empty, py_or, truthy.
  apply String.eqb_neq in Hne.
  destruct Hx as [-> | ->]; simpl; rewrite ?Hne; simpl; by rewrite ?Hne.
Qed.

(** C9. When [text] and [prompt] are each missing or the empty string,
    POST /gemini, POST /voice/text and the JSON path of POST /llm/query
    answer 400 and leave the state as it was: no entry is added to the
    trace of provider calls, the history store and the files are untouched.
    The outcome is the one for the body without the fields. *)
Theorem empty_text_is_missing_text (w : world) (payload : gmap string string)
    (ct : option string) (s : state) :
  blank (payload !! "text") ->
  blank (payload !! "prompt") ->
  contains "multipart/form-data" (default "" ct) = false ->
  (gemini_chat w payload s =
     (Ok (JSONResponse 400 [("error", Some "Prompt or text field is required")]), s)
   /\ gemini_chat w payload s = gemini_chat w ∅ s)
  /\ (voice_text w payload s =
        (Ok (JSONResponse 400 [("error", Some "Text is required"); fallback]), s)
      /\ voice_text w payload s = voice_text w ∅ s)
  /\ (llm_query w {| req_content_type := ct; req_json := Ok (JObj payload) |} None s =
        (Ok (JSONResponse 400 [("error", Some "Text or prompt field is required"); fallback]), s)
      /\ llm_query w {| req_content_type := ct; req_json := Ok (JObj payload) |} None s =
         llm_query w {| req_content_type := ct; req_json := Ok (JObj ∅) |} None s).
Proof.
  intros Ht Hp Hct.
  assert (H0 : forall k : string, blank ((∅ : gmap string string) !! k)) by (by left).
  repeat split.
  - unfold gemini_chat. by rewrite or_empty_blank.
  - unfold gemini_chat. by rewrite !or_empty_blank.
  - unfold voice_text, try_except. by rewrite or_empty_blank.
  - unfold voice_text, try_except. by rewrite !or_empty_blank.
  - unfold llm_query, try_except; simpl. rewrite Hct. simpl.
    unfold bind, lift; simpl. by rewrite or_empty_blank.
  - unfold llm_query, try_except; simpl. rewrite Hct. simpl.
    unfold bind, lift; simpl. by rewrite !or_empty_blank.
Qed.

Lemma empty_text_is_missing_text_witness :
  gemini_chat (demo_world 0 "" "hi") {[ "prompt" := "" ]} fresh =
    (Ok (JSONResponse 400 [("error", Some "Prompt or text field is required")]), fresh)
  /\ voice_text (demo_world 0 "" "hi") {[ "prompt" := "" ]} fresh =
       (Ok (JSONResponse 400 [("error", Some "Text is required"); fallback]), fresh)
  /\ llm_query (demo_world 0 "" "hi") (json_request {[ "prompt" := "" ]}) None fresh =
       (Ok (JSONResponse 400 [("error", Some "Text or prompt field is required"); fallback]),
        fresh).
Proof.
  destruct (empty_text_is_missing_text (demo_world 0 "" "hi") {[ "prompt" := "" ]}
              (Some "application/json") fresh)
    as ((Hg & _) & (Hv & _) & (Hl & _)).
  - left. reflexivity.
  - right. reflexivity.
  - reflexivity.
  - repeat split; assumption.
Defined.

(** ** The provider clients read nothing of the state *)

Lemma oblivious_ret {A} (a : A) : oblivious (ret a).
Proof. intros s. unfold outcome, calls, ret; simpl. by rewrite logs_nil. Qed.

Lemma oblivious_raise {A} (e : string) : oblivious (@raise A e).
Proof. intros s. unfold outcome, calls, raise; simpl. by rewrite logs_nil. Qed.

Lemma oblivious_lift {A} (r : result A) : oblivious (lift r).
Proof. intros s. unfold outcome, calls, lift; simpl. by rewrite logs_nil. Qed.

Lemma oblivious_call {A} (ev : event) (a : result A) : oblivious (call ev a).
Proof. intros s. reflexivity. Qed.

Lemma oblivious_sleep (secs : Z) : oblivious (time_sleep secs).
Proof.
  unfold time_sleep. destruct (secs <? 0); [apply oblivious_raise|].
  intros s. reflexivity.
Qed.

Lemma oblivious_bind {A B} (m : M A) (k : A -> M B) :
  oblivious m -> (forall a, oblivious (k a)) -> oblivious (bind m k).
Proof.
  intros Hm Hk s. unfold outcome, calls, bind.
  rewrite (Hm s), (Hm fresh). destruct (outcome m) as [a|e].
  - rewrite (Hk a (logs (calls m) s)), (Hk a (logs (calls m) fresh)); simpl.
    by rewrite logs_logs.
  - reflexivity.
Qed.

Lemma oblivious_if {A} (b : bool) (m1 m2 : M A) :
  oblivious m1 -> oblivious m2 -> oblivious (if b then m1 else m2).
Proof. by destruct b. Qed.

Create HintDb oblivious.
#[local] Hint Resolve oblivious_ret oblivious_raise oblivious_lift oblivious_call
  oblivious_sleep oblivious_if : oblivious.

Ltac oblivious :=
  repeat first
    [ solve [auto with oblivious]
    | apply oblivious_bind; [|intros ?]
    | apply oblivious_if
    | match goal with |- oblivious (match ?x with _ => _ end) => destruct x end ].

Lemma oblivious_upload_request w f : oblivious (upload_request w f).
Proof. unfold upload_request. oblivious. Qed.

Lemma oblivious_start_transcription w u : oblivious (start_transcription w u).
Proof. unfold start_transcription. oblivious. Qed.

Lemma oblivious_poll_loop w url interval tries : forall i,
  oblivious (poll_loop w url interval tries i).
Proof.
  induction tries as [|tries IH]; intros i; simpl; [apply oblivious_raise|].
  oblivious.
Qed.

Lemma oblivious_poll_transcription w id max_tries interval :
  oblivious (poll_transcription w id max_tries interval).
Proof. apply oblivious_poll_loop. Qed.

Lemma oblivious_gemini_generate w prompt : oblivious (gemini_generate w prompt).
Proof. unfold gemini_generate. oblivious. Qed.

Lemma oblivious_get_murf_voice_id w : oblivious (get_murf_voice_id w).
Proof. unfold get_murf_voice_id. oblivious. Qed.

#[local] Hint Resolve oblivious_upload_request oblivious_start_transcription
  oblivious_poll_transcription oblivious_gemini_generate oblivious_get_murf_voice_id
  : oblivious.

Lemma oblivious_stt w file : oblivious (stt w file).
Proof. unfold stt. oblivious. Qed.

(** ** Running the pipeline steps *)

(** Synthesis makes its calls and, when it gets to the end, writes the
    audio; it reads nothing of the state. *)
Lemma tts_run w text s :
  tts w text s =
    (outcome (tts w text), with_artifact (artifact w text) (logs (calls (tts w text)) s)).
Proof.
  unfold artifact, outcome, calls, tts, generate_murf_audio_and_save, get_murf_voice_id,
    bind, call, lift, raise, ret, write_file.
  repeat (case_step; simpl);
    rewrite ?lookup_insert_eq, ?lookup_empty; simpl;
    unfold log, logs, set_files; simpl; rewrite <- ?app_assoc; reflexivity.
Qed.

(** The speech-to-text block of a handler, run on the saved upload. *)
Lemma stt_block_run w file s :
  files s !! temp_name w = Some file ->
  (let* upload_url := upload_to_assemblyai w (temp_name w) in
   let* transcript_id := start_transcription w upload_url in
   poll_transcription w transcript_id 60 3) s =
    (outcome (stt w file), logs (calls (stt w file)) s).
Proof.
  intros Hf. rewrite <- (oblivious_stt w file s).
  unfold stt, upload_to_assemblyai, bind at 1 2, read_file. by rewrite Hf.
Qed.

(** [os.remove] under [try ... except: pass] leaves no file of that name,
    whether there was one or not. *)
Lemma try_remove_run path s : try_remove path s = (Ok tt, set_files (delete path) s).
Proof.
  unfold try_remove, try_except, os_remove, ret.
  destruct (files s !! path) eqn:E; [done|].
  f_equal. destruct s as [f c t]; unfold set_files; simpl in *. f_equal.
  symmetry. by apply delete_id.
Qed.

Lemma saved_lookup w file s : files (saved w file s) !! temp_name w = Some file.
Proof. apply lookup_insert_eq. Qed.

Lemma logs_files evs s : files (logs evs s) = files s.
Proof. reflexivity. Qed.

(** ** The handlers, step by step *)

Lemma echobot_voice_run w session_id file s :
  echobot_voice w session_id file s =
    match outcome (stt w file) with
    | Raise e => (Ok (stt_failed e), settled w file (calls (stt w file)) None s)
    | Ok transcript_text =>
        let evs := calls (stt w file) ++ calls (tts w transcript_text) in
        let a := artifact w transcript_text in
        match outcome (tts w transcript_text) with
        | Raise e => (Ok (tts_failed e), settled w file evs a s)
        | Ok _ =>
            (Ok (json_ok [("transcript", Some transcript_text);
                          ("audio_file", Some "/play-audio")]),
             settled w file evs a s)
        end
    end.
Proof.
  unfold echobot_voice, try_except, bind at 1, write_file.
  fold (saved w file s). unfold bind at 1, attempt.
  rewrite (stt_block_run w file) by apply saved_lookup.
  destruct (outcome (stt w file)) as [transcript_text|e].
  - unfold bind at 1. fold (tts w transcript_text). rewrite tts_run.
    rewrite logs_logs.
    destruct (outcome (tts w transcript_text)); unfold bind, ret;
      by rewrite try_remove_run.
  - unfold bind, ret. by rewrite try_remove_run.
Qed.

Lemma bind_run {A B} (m : M A) (k : A -> M B) s :
  bind m k s =
    match m s with
    | (Ok a, s') => k a s'
    | (Raise e, s') => (Raise e, s')
    end.
Proof. reflexivity. Qed.

Lemma attempt_run {A} (m : M A) s : attempt m s = (Ok (fst (m s)), snd (m s)).
Proof. unfold attempt. by destruct (m s). Qed.

Lemma history_frame sid evs w file s :
  history sid (logs evs (saved w file s)) = history sid s.
Proof. reflexivity. Qed.

Lemma chat_store_init_run sid s :
  chat_store_init sid s = (Ok tt, set_chat_store (insert sid (history sid s)) s).
Proof.
  unfold chat_store_init, history. destruct (chat_store s !! sid) eqn:E; [|done].
  f_equal. destruct s as [f c t]; unfold set_chat_store; simpl in *. f_equal.
  symmetry. by apply insert_id.
Qed.

Lemma chat_store_append_run sid m s h :
  chat_store s !! sid = Some h ->
  chat_store_append sid m s = (Ok tt, set_chat_store (insert sid (h ++ [m])) s).
Proof. intros H. unfold chat_store_append. by rewrite H. Qed.

Lemma chat_store_get_run sid s h :
  chat_store s !! sid = Some h -> chat_store_get sid s = (Ok h, s).
Proof. intros H. unfold chat_store_get. by rewrite H. Qed.

Lemma gemini_voice_run w session_id file s :
  gemini_voice w session_id file s =
    match outcome (stt w file) with
    | Raise e => (Ok (stt_failed e), settled w file (calls (stt w file)) None s)
    | Ok transcript_text =>
        let gen :=
          gemini_generate w (render (history session_id s ++ [user_turn transcript_text])) in
        match outcome gen with
        | Raise e =>
            (Ok (llm_failed e),
             settled w file (calls (stt w file) ++ calls gen) None
               (recorded session_id
                  [user_turn transcript_text; assistant_turn CANNED_REPLY] s))
        | Ok r =>
            let llm_reply := strip r in
            let s' :=
              settled w file
                (calls (stt w file) ++ calls gen ++ calls (tts w llm_reply))
                (artifact w llm_reply)
                (recorded session_id
                   [user_turn transcript_text; assistant_turn llm_reply] s) in
            match outcome (tts w llm_reply) with
            | Raise e => (Ok (tts_failed e), s')
            | Ok _ =>
                (Ok (json_ok [("transcript", Some transcript_text);
                              ("reply", Some llm_reply);
                              ("audio_file", Some "/play-audio")]), s')
            end
        end
    end.
Proof.
  unfold gemini_voice, try_except. rewrite bind_run. unfold write_file.
  fold (saved w file s). rewrite bind_run, attempt_run.
  rewrite (stt_block_run w file) by apply saved_lookup. cbn [fst snd].
  destruct (outcome (stt w file)) as [transcript_text|e].
  2: { rewrite bind_run, try_remove_run. reflexivity. }
  rewrite bind_run, chat_store_init_run, history_frame.
  rewrite bind_run.
  erewrite chat_store_append_run by (simpl; apply lookup_insert_eq).
  rewrite bind_run.
  erewrite chat_store_get_run by (simpl; apply lookup_insert_eq).
  fold (user_turn transcript_text).
  rewrite bind_run, attempt_run, bind_run.
  rewrite (oblivious_gemini_generate w _ _).
  set (gen := gemini_generate w (render (history session_id s ++ [user_turn transcript_text]))).
  destruct (outcome gen) as [r|e]; unfold ret; cbn [fst snd].
  - rewrite bind_run.
    erewrite chat_store_append_run by (simpl; apply lookup_insert_eq).
    rewrite bind_run, attempt_run. fold (tts w (strip r)). rewrite tts_run.
    fold (assistant_turn (strip r)). cbn [fst snd].
    match goal with
    | |- context [with_artifact ?a (logs ?evs ?s0)] =>
        assert (Hs : set_files (delete (temp_name w)) (with_artifact a (logs evs s0)) =
          settled w file (calls (stt w file) ++ calls gen ++ evs) a
            (recorded session_id [user_turn transcript_text; assistant_turn (strip r)] s))
    end.
    { destruct s as [f c t], (artifact w (strip r)) as [d|];
        unfold settled, cleaned, with_artifact, logs, saved, recorded, set_files,
          set_chat_store, history; simpl;
        by rewrite !insert_insert_eq, <- !app_assoc. }
    destruct (outcome (tts w (strip r))); rewrite bind_run, try_remove_run, Hs;
      reflexivity.
  - rewrite bind_run.
    erewrite chat_store_append_run by (simpl; apply lookup_insert_eq).
    rewrite bind_run, try_remove_run. fold (assistant_turn CANNED_REPLY).
    unfold ret. f_equal.
    destruct s as [f c t];
      unfold settled, cleaned, with_artifact, logs, saved, recorded, set_files,
        set_chat_store, history; simpl.
    by rewrite !insert_insert_eq, <- !app_assoc.
Qed.

Lemma history_settled w file evs a s sid :
  history sid (settled w file evs a s) = history sid s.
Proof. by destruct a. Qed.

Lemma history_recorded sid turns s :
  history sid (recorded sid turns s) = history sid s ++ turns.
Proof. unfold history at 1, recorded; simpl. by rewrite lookup_insert_eq. Qed.

Lemma files_settled w file evs a s :
  files (settled w file evs a s) !! temp_name w = None.
Proof. unfold settled, cleaned; simpl. apply lookup_delete_eq. Qed.

(** ** Session voice chat *)

(** C8. In POST /gemini/voice/{session_id}, when transcription succeeds
    with [transcript_text] and the generation step then fails, the handler
    answers 500 "LLM failed" with the fallback audio reference, and the
    session's history has grown by exactly two turns: the user turn and the
    canned assistant turn. *)
Theorem canned_turn_on_generation_failure (w : world) (session_id : string)
    (file : bytes) (s : state) (transcript_text e : string) :
  outcome (stt w file) = Ok transcript_text ->
  outcome (gemini_generate w
             (render (history session_id s ++ [user_turn transcript_text]))) = Raise e ->
  exists s',
    gemini_voice w session_id file s = (Ok (llm_failed e), s')
    /\ history session_id s' =
         history session_id s ++ [user_turn transcript_text; assistant_turn CANNED_REPLY]
    /\ length (history session_id s') = (length (history session_id s) + 2)%nat
    /\ status (llm_failed e) = 500
    /\ field "error" (body (llm_failed e)) = Some (Some "LLM failed")
    /\ field "audio_file" (body (llm_failed e)) = Some (Some FALLBACK_AUDIO_URL).
Proof.
  intros Hstt Hgen. rewrite gemini_voice_run, Hstt. simpl. rewrite Hgen.
  eexists; split; [reflexivity|].
  rewrite history_settled, history_recorded, length_app. by repeat split.
Qed.

Lemma canned_turn_on_generation_failure_witness :
  exists s',
    gemini_voice (model_down "what time is it") "abc" [Byte.x01] fresh =
      (Ok (llm_failed "503 UNAVAILABLE"), s')
    /\ history "abc" s' =
         [user_turn "what time is it"; assistant_turn CANNED_REPLY].
Proof.
  destruct (canned_turn_on_generation_failure (model_down "what time is it") "abc"
              [Byte.x01] fresh "what time is it" "503 UNAVAILABLE")
    as (s' & Hrun & Hh & _); [reflexivity | reflexivity |].
  exists s'. split; [exact Hrun | exact Hh].
Defined.

Lemma exchange_rendered (turns : list (string * string)) :
  map history_line (flat_map exchange turns) = flat_map exchange_lines turns.
Proof.
  induction turns as [|[t r] turns IH]; [reflexivity|].
  simpl. by rewrite IH.
Qed.

Lemma length_exchanges (turns : list (string * string)) :
  length (flat_map exchange turns) = (2 * length turns)%nat.
Proof. induction turns as [|[t r] turns IH]; simpl; lia. Qed.

(** Served in a row, successful requests each append their own exchange. *)
Lemma session_requests_history session_id reqs : forall s,
  Forall (fun r => status r = 200) (session_requests session_id reqs s).1 ->
  exists turns : list (string * string),
    length turns = length reqs
    /\ map body (session_requests session_id reqs s).1 = map chat_body turns
    /\ history session_id (session_requests session_id reqs s).2 =
         history session_id s ++ flat_map exchange turns.
Proof.
  induction reqs as [|[w file] reqs IH]; intros s Hok.
  { exists []. simpl. by rewrite app_nil_r. }
  simpl in *. unfold respond in *. rewrite gemini_voice_run in *.
  destruct (outcome (stt w file)) as [t|e]; simpl in *.
  2: { destruct (session_requests _ _ _); by inversion Hok. }
  destruct (outcome (gemini_generate w _)) as [r|e]; simpl in *.
  2: { destruct (session_requests _ _ _); by inversion Hok. }
  destruct (outcome (tts w (strip r))) as [p|e]; simpl in *.
  2: { destruct (session_requests _ _ _); by inversion Hok. }
  match goal with
  | H : context [session_requests _ _ ?s1] |- _ =>
      specialize (IH s1); destruct (session_requests session_id reqs s1) as [rs s2]
  end.
  simpl in *. inversion Hok as [|? ? _ Hrest]; subst.
  destruct (IH Hrest) as (turns & Hlen & Hbody & Hhist).
  exists ((t, strip r) :: turns). split; [simpl; lia|]. split; [simpl; by f_equal|].
  rewrite Hhist, history_settled, history_recorded, <- app_assoc. reflexivity.
Qed.

(** C2. Start from a session without history and serve [N] requests to
    POST /gemini/voice/{session_id} one after the other, all answered 200.
    Then the stored history holds exactly [2 N] turns: for each request in
    order, the user turn with its transcript followed by the assistant turn
    with its reply; and the prompt rendered from it is the system
    instruction, a blank line, one line ["User: ..."] or ["Assistant: ..."]
    per turn in that order, and the closing ["Assistant:"] cue. *)
Theorem history_after_successful_turns (session_id : string)
    (reqs : list (world * bytes)) (s : state) :
  history session_id s = [] ->
  Forall (fun r => status r = 200) (session_requests session_id reqs s).1 ->
  exists turns : list (string * string),
    length turns = length reqs
    /\ map body (session_requests session_id reqs s).1 = map chat_body turns
    /\ history session_id (session_requests session_id reqs s).2 = flat_map exchange turns
    /\ length (history session_id (session_requests session_id reqs s).2) =
         (2 * length reqs)%nat
    /\ render (history session_id (session_requests session_id reqs s).2) =
         SYSTEM_INSTRUCTION +:+ nl +:+ nl
         +:+ String.concat nl (flat_map exchange_lines turns)
         +:+ nl +:+ "Assistant:".
Proof.
  intros Hnew Hok.
  destruct (session_requests_history session_id reqs s Hok) as (turns & Hlen & Hbody & Hh).
  rewrite Hnew in Hh. simpl in Hh.
  exists turns. rewrite Hh. repeat split; try done.
  - by rewrite length_exchanges, Hlen.
  - unfold render. by rewrite exchange_rendered.
Qed.

Lemma history_after_successful_turns_witness :
  history "abc" (session_requests "abc" two_requests fresh).2 =
    [user_turn "what is the capital of France"; assistant_turn "Paris.";
     user_turn "and of Italy"; assistant_turn "Rome"]
  /\ render (history "abc" (session_requests "abc" two_requests fresh).2) =
       SYSTEM_INSTRUCTION +:+ nl +:+ nl
       +:+ String.concat nl ["User: what is the capital of France"; "Assistant: Paris.";
                             "User: and of Italy"; "Assistant: Rome"]
       +:+ nl +:+ "Assistant:".
Proof.
  destruct (history_after_successful_turns "abc" two_requests fresh)
    as (turns & Hlen & Hbody & Hh & _ & Hr).
  - reflexivity.
  - vm_compute. repeat constructor.
  - destruct turns as [|[t1 r1] [|[t2 r2] [|]]]; try discriminate Hlen.
    vm_compute in Hbody. simplify_eq. split; [exact Hh | exact Hr].
Defined.

(** ** Echo by text *)

(** A synthesis that succeeds has submitted its text once, cut to 3000
    characters if longer, and has written the audio. *)
Lemma tts_ok_submits w text p :
  outcome (tts w text) = Ok p ->
  speech_texts (calls (tts w text)) =
    [if len text >? 3000 then slice_to 3000 text else text]
  /\ is_Some (artifact w text).
Proof.
  unfold artifact, outcome, calls, tts, generate_murf_audio_and_save, get_murf_voice_id,
    bind, call, lift, raise, ret, write_file.
  repeat (case_step; simpl); try discriminate; intros _.
  all: rewrite lookup_insert_eq; split; [reflexivity | by eexists].
Qed.

(** A synthesis that fails has written nothing. *)
Lemma tts_raise_no_artifact w text e :
  outcome (tts w text) = Raise e -> artifact w text = None.
Proof.
  unfold artifact, outcome, calls, tts, generate_murf_audio_and_save, get_murf_voice_id,
    bind, call, lift, raise, ret, write_file.
  repeat (case_step; simpl); try discriminate; intros _; apply lookup_empty.
Qed.

(** C6, as the handler has it.  Take a [text] field that is non-empty and
    at most 3000 characters long.  When the synthesis step succeeds,
    POST /voice/text has submitted exactly that text for synthesis, has
    written the audio, and answers 200 with [reply] equal to the text and
    [audio_file] equal to ["/play-audio"].  When the synthesis step fails
    with message [e], it answers 500 "TTS failed" with [e] in [details] and
    the fallback audio reference under [audio_file], and writes no audio. *)
Theorem voice_text_echoes (w : world) (payload : gmap string string)
    (text : string) (s : state) :
  payload !! "text" = Some text ->
  text <> "" ->
  len text <= 3000 ->
  (forall p, outcome (tts w text) = Ok p ->
     voice_text w payload s =
       (Ok (json_ok [("reply", Some text); ("audio_file", Some "/play-audio")]),
        with_artifact (artifact w text) (logs (calls (tts w text)) s))
     /\ speech_texts (calls (tts w text)) = [text]
     /\ is_Some (artifact w text))
  /\ (forall e, outcome (tts w text) = Raise e ->
        voice_text w payload s = (Ok (tts_failed e), logs (calls (tts w text)) s)
        /\ status (tts_failed e) = 500
        /\ field "error" (body (tts_failed e)) = Some (Some "TTS failed")
        /\ field "details" (body (tts_failed e)) = Some (Some e)
        /\ field "audio_file" (body (tts_failed e)) = Some (Some FALLBACK_AUDIO_URL)).
Proof.
  intros Hp Hne Hlen.
  assert (Hrun : voice_text w payload s =
            (match outcome (tts w text) with
             | Ok _ => Ok (json_ok [("reply", Some text); ("audio_file", Some "/play-audio")])
             | Raise e => Ok (tts_failed e)
             end,
             with_artifact (artifact w text) (logs (calls (tts w text)) s))).
  { unfold voice_text, try_except. rewrite (or_empty_first _ _ text Hp Hne).
    apply String.eqb_neq in Hne. rewrite Hne.
    rewrite bind_run. fold (tts w text). rewrite tts_run.
    by destruct (outcome (tts w text)). }
  split.
  - intros p Hok. destruct (tts_ok_submits w text p Hok) as [Hsub Hart].
    assert (Hcut : (len text >? 3000) = false).
    { destruct (Z.gtb_spec (len text) 3000); [lia | done]. }
    rewrite Hcut in Hsub. by rewrite Hrun, Hok.
  - intros e He. rewrite Hrun, He, (tts_raise_no_artifact w text e He).
    by repeat split.
Qed.

Lemma voice_text_echoes_witness :
  (voice_text (demo_world 0 "" "") {[ "text" := "hello" ]} fresh =
     (Ok (json_ok [("reply", Some "hello"); ("audio_file", Some "/play-audio")]),
      with_artifact (artifact (demo_world 0 "" "") "hello")
        (logs (calls (tts (demo_world 0 "" "") "hello")) fresh))
   /\ speech_texts (calls (tts (demo_world 0 "" "") "hello")) = ["hello"]
   /\ is_Some (artifact (demo_world 0 "" "") "hello"))
  /\ voice_text murf_down {[ "text" := "hello" ]} fresh =
       (Ok (tts_failed "Murf TTS failed: 500 Internal Server Error"),
        logs (calls (tts murf_down "hello")) fresh).
Proof.
  destruct (voice_text_echoes (demo_world 0 "" "") {[ "text" := "hello" ]} "hello" fresh)
    as [Hok _]; [reflexivity | discriminate | vm_compute; discriminate |].
  destruct (voice_text_echoes murf_down {[ "text" := "hello" ]} "hello" fresh)
    as [_ Hfail]; [reflexivity | discriminate | vm_compute; discriminate |].
  split; [exact (Hok "murf_output.mp3" eq_refl)|].
  exact (proj1 (Hfail "Murf TTS failed: 500 Internal Server Error" eq_refl)).
Defined.

(** C6 as stated fails when the synthesis provider does: the text is
    non-empty and short, and the answer is 500 "TTS failed". *)
Lemma voice_text_provider_failure :
  ({[ "text" := "hello" ]} : gmap string string) !! "text" = Some "hello"
  /\ "hello" <> "" /\ len "hello" <= 3000
  /\ (voice_text murf_down {[ "text" := "hello" ]} fresh).1 =
       Ok (JSONResponse 500 [("error", Some "TTS failed");
                             ("details", Some "Murf TTS failed: 500 Internal Server Error");
                             ("audio_file", Some "/static/fallback.mp3")])
  /\ (voice_text murf_down {[ "text" := "hello" ]} fresh).1 <>
       Ok (json_ok [("reply", Some "hello"); ("audio_file", Some "/play-audio")]).
Proof.
  split; [reflexivity|]. split; [discriminate|]. split; [vm_compute; discriminate|].
  split; [reflexivity|]. vm_compute. discriminate.
Qed.

(** ** The dual-mode endpoint *)

Lemma llm_query_audio_run w request file s :
  llm_query w request (Some file) s =
    match outcome (stt w file) with
    | Raise e => (Ok (stt_failed e), settled w file (calls (stt w file)) None s)
    | Ok transcript_text =>
        let gen := gemini_generate w transcript_text in
        match outcome gen with
        | Raise e =>
            (Ok (llm_failed e), settled w file (calls (stt w file) ++ calls gen) None s)
        | Ok r =>
            let llm_reply := strip r in
            let s' :=
              settled w file (calls (stt w file) ++ calls gen ++ calls (tts w llm_reply))
                (artifact w llm_reply) s in
            match outcome (tts w llm_reply) with
            | Raise e => (Ok (tts_failed e), s')
            | Ok _ =>
                (Ok (json_ok [("transcript", Some transcript_text);
                              ("llm_response", Some llm_reply);
                              ("audio_file", Some "/play-audio")]), s')
            end
        end
    end.
Proof.
  unfold llm_query, try_except.
  rewrite bool_decide_eq_true_2 by done. cbn [orb].
  rewrite bind_run. unfold write_file. fold (saved w file s).
  rewrite bind_run, attempt_run.
  rewrite (stt_block_run w file) by apply saved_lookup. cbn [fst snd].
  destruct (outcome (stt w file)) as [transcript_text|e].
  2: { rewrite bind_run, try_remove_run. reflexivity. }
  rewrite bind_run, attempt_run, bind_run.
  rewrite (oblivious_gemini_generate w _ _).
  set (gen := gemini_generate w transcript_text).
  destruct (outcome gen) as [r|e]; unfold ret; cbn [fst snd].
  - rewrite bind_run, attempt_run. fold (tts w (strip r)). rewrite tts_run.
    cbn [fst snd]. rewrite !logs_logs, <- ?app_assoc.
    destruct (outcome (tts w (strip r))); rewrite bind_run, try_remove_run;
      reflexivity.
  - rewrite bind_run, try_remove_run, logs_logs. reflexivity.
Qed.




(** ** Failures *)

Lemma outcome_bind {A B} (m : M A) (k : A -> M B) :
  oblivious m -> (forall a, oblivious (k a)) ->
  outcome (bind m k) =
    match outcome m with
    | Ok a => outcome (k a)
    | Raise e => Raise e
    end.
Proof.
  intros Hm Hk. unfold outcome at 1. rewrite bind_run, (Hm fresh).
  destruct (outcome m) as [a|e]; [|done]. by rewrite (Hk a).
Qed.

Lemma calls_bind {A B} (m : M A) (k : A -> M B) :
  oblivious m -> (forall a, oblivious (k a)) ->
  calls (bind m k) =
    calls m ++ match outcome m with
               | Ok a => calls (k a)
               | Raise e => []
               end.
Proof.
  intros Hm Hk. unfold calls at 1. rewrite bind_run, (Hm fresh).
  destruct (outcome m) as [a|e]; simpl; [|by rewrite app_nil_r].
  by rewrite (Hk a).
Qed.

Lemma calls_upload_request w file : calls (upload_request w file) = [EvUpload file].
Proof.
  unfold calls, upload_request, bind, call, lift, raise.
  repeat (case_step; simpl); reflexivity.
Qed.

Lemma calls_start_transcription w u : calls (start_transcription w u) = [EvTranscript u].
Proof.
  unfold calls, start_transcription, bind, call, lift, raise.
  repeat (case_step; simpl); reflexivity.
Qed.

(** The speech-to-text block stops at its first failing call. *)
Lemma stt_steps w file :
  (forall e, outcome (upload_request w file) = Raise e ->
     outcome (stt w file) = Raise e /\ calls (stt w file) = [EvUpload file])
  /\ (forall u e,
        outcome (upload_request w file) = Ok u ->
        outcome (start_transcription w u) = Raise e ->
        outcome (stt w file) = Raise e
        /\ calls (stt w file) = [EvUpload file; EvTranscript u])
  /\ (forall u id,
        outcome (upload_request w file) = Ok u ->
        outcome (start_transcription w u) = Ok id ->
        outcome (stt w file) = outcome (poll_transcription w id 60 3)
        /\ calls (stt w file) =
             [EvUpload file; EvTranscript u] ++ calls (poll_transcription w id 60 3)).
Proof.
  assert (Ho : outcome (stt w file) =
            match outcome (upload_request w file) with
            | Ok u =>
                match outcome (start_transcription w u) with
                | Ok id => outcome (poll_transcription w id 60 3)
                | Raise e => Raise e
                end
            | Raise e => Raise e
            end).
  { unfold stt. rewrite outcome_bind; [|oblivious|intros ?; oblivious].
    destruct (outcome (upload_request w file)); [|done].
    rewrite outcome_bind; [done|oblivious|intros ?; oblivious]. }
  assert (Hc : calls (stt w file) =
            [EvUpload file] ++
            match outcome (upload_request w file) with
            | Ok u =>
                [EvTranscript u] ++
                match outcome (start_transcription w u) with
                | Ok id => calls (poll_transcription w id 60 3)
                | Raise e => []
                end
            | Raise e => []
            end).
  { unfold stt. rewrite calls_bind; [|oblivious|intros ?; oblivious].
    rewrite calls_upload_request.
    destruct (outcome (upload_request w file)); [|done].
    rewrite calls_bind; [|oblivious|intros ?; oblivious].
    by rewrite calls_start_transcription. }
  split; [|split].
  - intros e He. by rewrite Ho, Hc, He.
  - intros u e Hu He. by rewrite Ho, Hc, Hu, He.
  - intros u id Hu Hid. by rewrite Ho, Hc, Hu, Hid.
Qed.

Lemma temp_name_not_output w : temp_name w <> "murf_output.mp3".
Proof. unfold temp_name. discriminate. Qed.

Lemma chat_store_settled w file evs a s :
  chat_store (settled w file evs a s) = chat_store s.
Proof. by destruct a. Qed.

Lemma trace_settled w file evs a s :
  trace (settled w file evs a s) = trace s ++ evs.
Proof. by destruct a. Qed.

Lemma fallback_error_stt e : fallback_error (stt_failed e).
Proof. repeat split; by eexists. Qed.

Lemma fallback_error_llm e : fallback_error (llm_failed e).
Proof. repeat split; by eexists. Qed.

Lemma fallback_error_tts e : fallback_error (tts_failed e).
Proof. repeat split; by eexists. Qed.

(** ** Echo by voice *)

(** X1. POST /echobot/voice/{session_id} makes no use of the session id:
    two requests that differ only in it get the same answer and leave the
    same state; and the history store is never touched, whatever the
    providers answer. *)
Theorem echobot_voice_ignores_session (w : world) (sid1 sid2 : string)
    (file : bytes) (s : state) :
  echobot_voice w sid1 file s = echobot_voice w sid2 file s
  /\ chat_store (echobot_voice w sid1 file s).2 = chat_store s.
Proof.
  split; [by rewrite !echobot_voice_run|].
  rewrite echobot_voice_run.
  destruct (outcome (stt w file)) as [t|e]; [|apply chat_store_settled].
  simpl. destruct (outcome (tts w t)); apply chat_store_settled.
Qed.

(** X2. Whatever the providers answer, POST /echobot/voice/{session_id}
    returns a response (it never lets an exception through), the response
    is either the 200 [{transcript, audio_file: "/play-audio"}] or a 500
    with an [error] field and the fallback audio reference, and in both
    cases the temporary upload file is gone afterwards. *)
Theorem echobot_voice_always_answers (w : world) (session_id : string)
    (file : bytes) (s : state) :
  exists r,
    (echobot_voice w session_id file s).1 = Ok r
    /\ ((exists t, r = json_ok [("transcript", Some t); ("audio_file", Some "/play-audio")])
        \/ fallback_error r)
    /\ files (echobot_voice w session_id file s).2 !! temp_name w = None.
Proof.
  rewrite echobot_voice_run.
  destruct (outcome (stt w file)) as [t|e]; cbv zeta.
  - destruct (outcome (tts w t)) as [p|e]; cbn [fst snd]; eexists;
      (split; [reflexivity|]); (split; [|apply files_settled]).
    + left. by eexists.
    + right. apply fallback_error_tts.
  - cbn [fst snd]. eexists. split; [reflexivity|]. split; [|apply files_settled].
    right. apply fallback_error_stt.
Qed.

(** X3. POST /echobot/voice/{session_id} stops at the first failing step.
    A failing upload is answered "STT failed" after the upload call alone;
    a failing job start after the upload and the job request; failing
    polling without any call to the speech provider; and a failing
    synthesis is answered "TTS failed" with no audio written.  The
    [details] field carries the message of the failing step. *)
Theorem echobot_voice_short_circuits (w : world) (session_id : string)
    (file : bytes) (s : state) :
  (forall e, outcome (upload_request w file) = Raise e ->
     echobot_voice w session_id file s =
       (Ok (stt_failed e), settled w file [EvUpload file] None s))
  /\ (forall u e,
        outcome (upload_request w file) = Ok u ->
        outcome (start_transcription w u) = Raise e ->
        echobot_voice w session_id file s =
          (Ok (stt_failed e), settled w file [EvUpload file; EvTranscript u] None s))
  /\ (forall u id e,
        outcome (upload_request w file) = Ok u ->
        outcome (start_transcription w u) = Ok id ->
        outcome (poll_transcription w id 60 3) = Raise e ->
        echobot_voice w session_id file s =
          (Ok (stt_failed e),
           settled w file
             ([EvUpload file; EvTranscript u] ++ calls (poll_transcription w id 60 3))
             None s))
  /\ (forall t e,
        outcome (stt w file) = Ok t ->
        outcome (tts w t) = Raise e ->
        echobot_voice w session_id file s =
          (Ok (tts_failed e),
           settled w file (calls (stt w file) ++ calls (tts w t)) None s)).
Proof.
  destruct (stt_steps w file) as (Hup & Hstart & Hpoll).
  repeat split.
  - intros e He. destruct (Hup e He) as [Ho Hc].
    by rewrite echobot_voice_run, Ho, Hc.
  - intros u e Hu He. destruct (Hstart u e Hu He) as [Ho Hc].
    by rewrite echobot_voice_run, Ho, Hc.
  - intros u id e Hu Hid He. destruct (Hpoll u id Hu Hid) as [Ho Hc].
    by rewrite echobot_voice_run, Ho, Hc, He.
  - intros t e Ht He. rewrite echobot_voice_run, Ht. simpl.
    by rewrite He, (tts_raise_no_artifact w t e He).
Qed.

Lemma echobot_voice_short_circuits_witness :
  echobot_voice upload_down "abc" [Byte.x01] fresh =
    (Ok (stt_failed "AssemblyAI upload failed: 500 Internal Server Error"),
     settled upload_down [Byte.x01] [EvUpload [Byte.x01]] None fresh)
  /\ echobot_voice (failing_job 1 "bad audio") "abc" [Byte.x01] fresh =
       (Ok (stt_failed "AssemblyAI transcription error: bad audio"),
        settled (failing_job 1 "bad audio") [Byte.x01]
          ([EvUpload [Byte.x01]; EvTranscript (Some "https://cdn.example/u1")]
             ++ calls (poll_transcription (failing_job 1 "bad audio") (Some "job1") 60 3))
          None fresh)
  /\ echobot_voice murf_down "abc" [Byte.x01] fresh =
       (Ok (tts_failed "Murf TTS failed: 500 Internal Server Error"),
        settled murf_down [Byte.x01]
          (calls (stt murf_down [Byte.x01]) ++ calls (tts murf_down "hello")) None fresh).
Proof.
  destruct (echobot_voice_short_circuits upload_down "abc" [Byte.x01] fresh)
    as (Hup & _ & _ & _).
  destruct (echobot_voice_short_circuits (failing_job 1 "bad audio") "abc" [Byte.x01] fresh)
    as (_ & _ & Hpoll & _).
  destruct (echobot_voice_short_circuits murf_down "abc" [Byte.x01] fresh)
    as (_ & _ & _ & Htts).
  split; [apply Hup; reflexivity|].
  split; [apply (Hpoll (Some "https://cdn.example/u1") (Some "job1")); reflexivity|].
  apply Htts; reflexivity.
Defined.

(** ** More on session voice chat *)

Lemma chat_store_recorded_other sid sid' turns s :
  sid' <> sid -> chat_store (recorded sid turns s) !! sid' = chat_store s !! sid'.
Proof. intros Hne. unfold recorded; simpl. by apply lookup_insert_ne. Qed.

(** X4. In POST /gemini/voice/{session_id}, when transcription and
    generation succeed and synthesis then fails, the answer is 500
    "TTS failed", yet both turns of the exchange, the transcript and the
    stripped reply, stay recorded in the session's history. *)
Theorem turns_kept_on_synthesis_failure (w : world) (session_id : string)
    (file : bytes) (s : state) (t r e : string) :
  outcome (stt w file) = Ok t ->
  outcome (gemini_generate w (render (history session_id s ++ [user_turn t]))) = Ok r ->
  outcome (tts w (strip r)) = Raise e ->
  (gemini_voice w session_id file s).1 = Ok (tts_failed e)
  /\ history session_id (gemini_voice w session_id file s).2 =
       history session_id s ++ [user_turn t; assistant_turn (strip r)].
Proof.
  intros Ht Hr He. rewrite gemini_voice_run, Ht. cbv zeta. rewrite Hr, He.
  cbn [fst snd]. by rewrite history_settled, history_recorded.
Qed.

Lemma turns_kept_on_synthesis_failure_witness :
  (gemini_voice (speech_down "hi" " Hello! ") "abc" [Byte.x01] fresh).1 =
    Ok (tts_failed "Murf TTS failed: 500 Internal Server Error")
  /\ history "abc" (gemini_voice (speech_down "hi" " Hello! ") "abc" [Byte.x01] fresh).2 =
       [user_turn "hi"; assistant_turn "Hello!"].
Proof.
  apply (turns_kept_on_synthesis_failure (speech_down "hi" " Hello! ") "abc" [Byte.x01]
           fresh "hi" " Hello! " "Murf TTS failed: 500 Internal Server Error");
    reflexivity.
Defined.

(** X5. Whatever the providers answer, one request to
    POST /gemini/voice/{session_id} leaves every other session's history as
    it was, and extends this session's history by nothing (transcription
    failed) or by exactly a user turn followed by an assistant turn; it
    never removes or rewrites a recorded turn and never records a user turn
    alone. *)
Theorem gemini_voice_history_step (w : world) (session_id : string)
    (file : bytes) (s : state) :
  (forall other, other <> session_id ->
     chat_store (gemini_voice w session_id file s).2 !! other = chat_store s !! other)
  /\ (chat_store (gemini_voice w session_id file s).2 = chat_store s
      \/ exists t r,
           history session_id (gemini_voice w session_id file s).2 =
             history session_id s ++ [user_turn t; assistant_turn r]).
Proof.
  rewrite gemini_voice_run.
  destruct (outcome (stt w file)) as [t|e]; cbv zeta.
  2: { cbn [snd]. rewrite chat_store_settled. split; [done | by left]. }
  destruct (outcome (gemini_generate w _)) as [r|e].
  - destruct (outcome (tts w (strip r))); cbn [snd]; rewrite chat_store_settled;
      (split; [intros; by apply chat_store_recorded_other|]);
      right; exists t, (strip r); by rewrite history_settled, history_recorded.
  - cbn [snd]. rewrite chat_store_settled.
    split; [intros; by apply chat_store_recorded_other|].
    right. exists t, CANNED_REPLY. by rewrite history_settled, history_recorded.
Qed.

(** X6. Whatever the providers answer, POST /gemini/voice/{session_id}
    returns a response, which is the 200 [{transcript, reply, audio_file}]
    or a 500 with an [error] field and the fallback audio reference; the
    temporary upload file is gone afterwards in every case. *)
Theorem gemini_voice_always_answers (w : world) (session_id : string)
    (file : bytes) (s : state) :
  exists resp,
    (gemini_voice w session_id file s).1 = Ok resp
    /\ ((exists t r, resp = json_ok (chat_body (t, r))) \/ fallback_error resp)
    /\ files (gemini_voice w session_id file s).2 !! temp_name w = None.
Proof.
  rewrite gemini_voice_run.
  destruct (outcome (stt w file)) as [t|e]; cbv zeta.
  2: { cbn [fst snd]. eexists. split; [reflexivity|]. split; [|apply files_settled].
       right. apply fallback_error_stt. }
  destruct (outcome (gemini_generate w _)) as [r|e].
  - destruct (outcome (tts w (strip r))); cbn [fst snd]; eexists;
      (split; [reflexivity|]); (split; [|apply files_settled]).
    + left. by exists t, (strip r).
    + right. apply fallback_error_tts.
  - cbn [fst snd]. eexists. split; [reflexivity|]. split; [|apply files_settled].
    right. apply fallback_error_llm.
Qed.

(** ** The polling budget *)

Lemma poll_loop_events w url interval tries : forall i s,
  exists evs,
    (poll_loop w url interval tries i s).2 = logs evs s
    /\ (polls evs <= tries)%nat
    /\ Forall (poll_event url interval) evs.
Proof.
  induction tries as [|tries IH]; intros i s.
  { exists []. simpl. rewrite logs_nil. repeat split; [unfold polls; simpl; lia | constructor]. }
  assert (Hone : (polls [EvPoll url] <= S tries)%nat) by (unfold polls; simpl; lia).
  assert (Hp : Forall (poll_event url interval) [EvPoll url]).
  { constructor; [by left | constructor]. }
  simpl. rewrite bind_run. unfold call at 1.
  destruct (poll_endpoint w url i) as [r|e]; [|by exists [EvPoll url]].
  destruct (negb (resp_status_code r =? 200)); [by exists [EvPoll url]|].
  rewrite bind_run. unfold lift at 1.
  destruct (resp_json r) as [j|e]; [|by exists [EvPoll url]].
  rewrite bind_run. unfold lift at 1.
  destruct (py_get j "status") as [st|e]; [|by exists [EvPoll url]].
  destruct (bool_decide (st = Some "completed")).
  { rewrite bind_run. unfold lift at 1.
    destruct (py_get j "text"); by exists [EvPoll url]. }
  destruct (bool_decide (st = Some "error")).
  { rewrite bind_run. unfold lift at 1.
    destruct (py_get j "error"); by exists [EvPoll url]. }
  rewrite bind_run. unfold time_sleep.
  destruct (interval <? 0); [by exists [EvPoll url]|].
  destruct (IH (S i) (log (EvSleep interval) (log (EvPoll url) s))) as (evs & Hs & Hn & Hall).
  exists ([EvPoll url; EvSleep interval] ++ evs). rewrite Hs.
  split; [by rewrite !log_logs, !logs_logs|]. split.
  - rewrite polls_app. unfold polls at 1. simpl. lia.
  - apply Forall_app. split; [|done].
    constructor; [by left|]. constructor; [by right|]. constructor.
Qed.

Lemma poll_transcription_calls w id max_tries interval :
  (polls (calls (poll_transcription w id max_tries interval)) <= Z.to_nat max_tries)%nat
  /\ Forall (poll_event (transcript_url id) interval)
       (calls (poll_transcription w id max_tries interval)).
Proof.
  unfold calls, poll_transcription.
  destruct (poll_loop_events w (transcript_url id) interval (Z.to_nat max_tries) 0%nat fresh)
    as (evs & -> & Hn & Hall).
  done.
Qed.

Lemma speech_texts_poll w id max_tries interval :
  speech_texts (calls (poll_transcription w id max_tries interval)) = [].
Proof.
  destruct (poll_transcription_calls w id max_tries interval) as [_ Hall].
  induction Hall as [|ev evs [-> | ->] _ IH]; [reflexivity | exact IH | exact IH].
Qed.

(** ** More on the dual-mode endpoint *)

(** X7. With an audio attachment, POST /llm/query never looks at the
    request itself: content type and body make no difference to the answer
    or to the state left behind.  It always returns a response, the 200
    [{transcript, llm_response, audio_file}] or a 500 with an [error] field
    and the fallback reference; the temporary upload file is gone
    afterwards and the history store is untouched. *)
Theorem llm_query_audio_always_answers (w : world) (req1 req2 : request)
    (file : bytes) (s : state) :
  llm_query w req1 (Some file) s = llm_query w req2 (Some file) s
  /\ (exists resp,
        (llm_query w req1 (Some file) s).1 = Ok resp
        /\ ((exists t r, resp = json_ok [("transcript", Some t); ("llm_response", Some r);
                                         ("audio_file", Some "/play-audio")])
            \/ fallback_error resp))
  /\ files (llm_query w req1 (Some file) s).2 !! temp_name w = None
  /\ chat_store (llm_query w req1 (Some file) s).2 = chat_store s.
Proof.
  split; [by rewrite !llm_query_audio_run|].
  rewrite llm_query_audio_run.
  destruct (outcome (stt w file)) as [t|e]; cbv zeta.
  2: { cbn [fst snd]. split; [|split; [apply files_settled | apply chat_store_settled]].
       eexists. split; [reflexivity|]. right. apply fallback_error_stt. }
  destruct (outcome (gemini_generate w t)) as [r|e].
  - destruct (outcome (tts w (strip r))); cbn [fst snd];
      (split; [|split; [apply files_settled | apply chat_store_settled]]);
      eexists; (split; [reflexivity|]).
    + left. by exists t, (strip r).
    + right. apply fallback_error_tts.
  - cbn [fst snd]. split; [|split; [apply files_settled | apply chat_store_settled]].
    eexists. split; [reflexivity|]. right. apply fallback_error_llm.
Qed.

(** X8. On the audio path of POST /llm/query, when transcription succeeds
    and generation fails, the answer is 500 "LLM failed" with the model's
    message in [details]; the calls made are those of transcription and the
    one to the model, none to the speech provider, and no audio is
    written. *)
Theorem llm_query_generation_failure (w : world) (request : request)
    (file : bytes) (s : state) (t e : string) :
  outcome (stt w file) = Ok t ->
  outcome (gemini_generate w t) = Raise e ->
  llm_query w request (Some file) s =
    (Ok (llm_failed e),
     settled w file (calls (stt w file) ++ calls (gemini_generate w t)) None s)
  /\ speech_texts (calls (stt w file) ++ calls (gemini_generate w t)) = [].
Proof.
  intros Ht He. split.
  - rewrite llm_query_audio_run, Ht. cbv zeta. by rewrite He.
  - rewrite speech_texts_app.
    assert (Hs : speech_texts (calls (stt w file)) = []).
    { destruct (stt_steps w file) as (Hup & Hstart & Hpoll).
      destruct (outcome (upload_request w file)) as [u|e0] eqn:Eu.
      2: { destruct (Hup e0 eq_refl) as [_ ->]. reflexivity. }
      destruct (outcome (start_transcription w u)) as [id|e0] eqn:Ei.
      2: { destruct (Hstart u e0 eq_refl Ei) as [_ ->]. reflexivity. }
      destruct (Hpoll u id eq_refl Ei) as [_ ->].
      rewrite speech_texts_app. simpl. apply speech_texts_poll. }
    rewrite Hs. simpl.
    unfold calls, gemini_generate, call, raise.
    destruct (gemini_client w); reflexivity.
Qed.

Lemma llm_query_generation_failure_witness :
  llm_query (model_down "hi") (json_request ∅) (Some [Byte.x01]) fresh =
    (Ok (llm_failed "503 UNAVAILABLE"),
     settled (model_down "hi") [Byte.x01]
       (calls (stt (model_down "hi") [Byte.x01])
          ++ calls (gemini_generate (model_down "hi") "hi")) None fresh)
  /\ speech_texts (calls (stt (model_down "hi") [Byte.x01])
                     ++ calls (gemini_generate (model_down "hi") "hi")) = [].
Proof.
  apply (llm_query_generation_failure (model_down "hi") (json_request ∅) [Byte.x01] fresh
           "hi" "503 UNAVAILABLE"); reflexivity.
Defined.

(** X9. Whatever the provider answers, [poll_transcription] makes at most
    [max_tries] status requests, every one of them to the URL of the job it
    was given, with nothing but a sleep of [interval] in between; it writes
    no file and no history.  With a budget of zero or less it raises the
    timeout error at once, without asking the provider. *)
Theorem poll_transcription_budget (w : world) (transcript_id : option string)
    (max_tries interval : Z) (s : state) :
  (exists evs,
     (poll_transcription w transcript_id max_tries interval s).2 = logs evs s
     /\ (polls evs <= Z.to_nat max_tries)%nat
     /\ Forall (poll_event (transcript_url transcript_id) interval) evs)
  /\ (max_tries <= 0 ->
      poll_transcription w transcript_id max_tries interval s =
        (Raise "Transcription timed out", s)).
Proof.
  split.
  - apply poll_loop_events.
  - intros Hle. unfold poll_transcription.
    replace (Z.to_nat max_tries) with 0%nat by lia. reflexivity.
Qed.

Lemma poll_transcription_budget_witness :
  poll_transcription (demo_world 0 "hi" "") (Some "job1") (-1) 3 fresh =
    (Raise "Transcription timed out", fresh).
Proof.
  destruct (poll_transcription_budget (demo_world 0 "hi" "") (Some "job1") (-1) 3 fresh)
    as [_ Hzero].
  apply Hzero. lia.
Defined.

(** ** Text endpoints *)

Lemma llm_query_json_run w ct data s :
  contains "multipart/form-data" (default "" ct) = false ->
  llm_query w {| req_content_type := ct; req_json := Ok (JObj data) |} None s =
    let prompt := or_empty (data !! "text") (data !! "prompt") in
    if String.eqb prompt "" then
      (Ok (JSONResponse 400 [("error", Some "Text or prompt field is required"); fallback]), s)
    else
      match outcome (gemini_generate w prompt) with
      | Ok text =>
          (Ok (json_ok [("response", Some text)]), logs (calls (gemini_generate w prompt)) s)
      | Raise e =>
          (Ok (JSONResponse 500 [("error", Some e); fallback]),
           logs (calls (gemini_generate w prompt)) s)
      end.
Proof.
  intros Hct. unfold llm_query, try_except. cbn [req_content_type req_json]. rewrite Hct.
  rewrite bool_decide_eq_false_2 by (intros H; by apply H). cbn [orb].
  rewrite bind_run. unfold lift at 1. cbn beta iota.
  rewrite bind_run. unfold lift at 1, py_get at 1. cbn beta iota.
  rewrite bind_run. unfold lift at 1, py_get at 1. cbn beta iota zeta.
  destruct (String.eqb _ ""); [reflexivity|].
  rewrite bind_run, (oblivious_gemini_generate w _ s).
  by destruct (outcome (gemini_generate w _)).
Qed.

Lemma gemini_chat_run w payload s :
  gemini_chat w payload s =
    let prompt := or_empty (payload !! "prompt") (payload !! "text") in
    if String.eqb prompt "" then
      (Ok (JSONResponse 400 [("error", Some "Prompt or text field is required")]), s)
    else
      match outcome (gemini_generate w prompt) with
      | Ok text =>
          (Ok (json_ok [("response", Some text)]), logs (calls (gemini_generate w prompt)) s)
      | Raise e =>
          (Ok (JSONResponse 500 [("error", Some "Failed to generate response");
                                 ("details", Some e); fallback]),
           logs (calls (gemini_generate w prompt)) s)
      end.
Proof.
  unfold gemini_chat, try_except. cbv zeta.
  destruct (String.eqb _ ""); [reflexivity|].
  rewrite bind_run, (oblivious_gemini_generate w _ s).
  by destruct (outcome (gemini_generate w _)).
Qed.

(** X10. When a body carries both a non-empty [prompt] and a non-empty
    [text], POST /gemini uses the prompt and ignores the text, whereas
    POST /llm/query (JSON path) and POST /voice/text use the text and
    ignore the prompt. *)
Theorem text_and_prompt_precedence (w : world) (payload : gmap string string)
    (ct : option string) (p t : string) (s : state) :
  payload !! "prompt" = Some p -> p <> "" ->
  payload !! "text" = Some t -> t <> "" ->
  gemini_chat w payload s = gemini_chat w {[ "prompt" := p ]} s
  /\ llm_query w {| req_content_type := ct; req_json := Ok (JObj payload) |} None s =
     llm_query w {| req_content_type := ct; req_json := Ok (JObj {[ "text" := t ]}) |} None s
  /\ voice_text w payload s = voice_text w {[ "text" := t ]} s.
Proof.
  intros Hp Hpne Ht Htne.
  assert (H1 : or_empty (payload !! "prompt") (payload !! "text") = p)
    by by apply or_empty_first.
  assert (H2 : or_empty (payload !! "text") (payload !! "prompt") = t)
    by by apply or_empty_first.
  assert (H3 : forall k v (y : option string), v <> "" ->
            or_empty (({[ k := v ]} : gmap string string) !! k) y = v).
  { intros k v y Hv. apply or_empty_first; [apply lookup_singleton_eq | done]. }
  split; [|split].
  - rewrite !gemini_chat_run. cbv zeta. by rewrite H1, H3.
  - destruct (contains "multipart/form-data" (default "" ct)) eqn:Hct.
    + unfold llm_query, try_except. cbn [req_content_type]. by rewrite Hct.
    + rewrite !llm_query_json_run by done. cbv zeta. by rewrite H2, H3.
  - unfold voice_text. by rewrite H2, H3.
Qed.

Lemma text_and_prompt_precedence_witness :
  gemini_chat (demo_world 0 "" "ok") {[ "prompt" := "P"; "text" := "T" ]} fresh =
    (Ok (json_ok [("response", Some "ok")]), logs [EvGenerate "P"] fresh)
  /\ llm_query (demo_world 0 "" "ok") (json_request {[ "prompt" := "P"; "text" := "T" ]})
       None fresh =
       (Ok (json_ok [("response", Some "ok")]), logs [EvGenerate "T"] fresh).
Proof.
  destruct (text_and_prompt_precedence (demo_world 0 "" "ok")
              {[ "prompt" := "P"; "text" := "T" ]} (Some "application/json") "P" "T" fresh)
    as (Hg & Hl & _); [reflexivity | discriminate | reflexivity | discriminate |].
  split; [rewrite Hg | unfold json_request; rewrite Hl]; reflexivity.
Defined.

(** X11. Whatever the model does, POST /gemini returns a response, writes
    no file and no history, and makes at most one call, to the model.  Its
    answer is the 200 [{response}], or a 400 that carries no [audio_file]
    key and is given without any call, or a 500 with an [error] field and
    the fallback audio reference. *)
Theorem gemini_chat_always_answers (w : world) (payload : gmap string string) (s : state) :
  exists resp evs,
    gemini_chat w payload s = (Ok resp, logs evs s)
    /\ (evs = [] \/ exists p, p <> "" /\ evs = [EvGenerate p])
    /\ ((exists text, resp = json_ok [("response", Some text)])
        \/ (status resp = 400 /\ field "audio_file" (body resp) = None /\ evs = [])
        \/ fallback_error resp).
Proof.
  rewrite gemini_chat_run. cbv zeta.
  set (prompt := or_empty (payload !! "prompt") (payload !! "text")).
  destruct (String.eqb prompt "") eqn:E.
  { eexists _, []. rewrite logs_nil. split; [reflexivity|]. split; [by left|].
    right. left. by repeat split. }
  apply String.eqb_neq in E.
  assert (Hc : calls (gemini_generate w prompt) = []
               \/ calls (gemini_generate w prompt) = [EvGenerate prompt]).
  { unfold calls, gemini_generate, call, raise. destruct (gemini_client w); [by right | by left]. }
  destruct (outcome (gemini_generate w prompt)) as [text|e]; eexists _, _;
    (split; [reflexivity|]);
    (split; [destruct Hc as [-> | ->]; [by left | right; by exists prompt]|]).
  - left. by eexists.
  - right. right. repeat split; by eexists.
Qed.

(** X12. On the JSON path of POST /llm/query (no attachment, no multipart
    content type), a body that does not parse as JSON, or that parses to an
    array, is answered 500 with the parser's or the [get] error message and
    the fallback audio reference; the model is not called and nothing is
    changed. *)
Theorem llm_query_bad_body (w : world) (ct : option string) (s : state) :
  contains "multipart/form-data" (default "" ct) = false ->
  (forall e,
     llm_query w {| req_content_type := ct; req_json := Raise e |} None s =
       (Ok (JSONResponse 500 [("error", Some e); fallback]), s))
  /\ (forall l,
        llm_query w {| req_content_type := ct; req_json := Ok (JArr l) |} None s =
          (Ok (JSONResponse 500 [("error", Some "'list' object has no attribute 'get'");
                                 fallback]), s)).
Proof.
  intros Hct. split; intros x; unfold llm_query, try_except; cbn [req_content_type req_json];
    rewrite Hct; rewrite bool_decide_eq_false_2 by (intros H; by apply H); reflexivity.
Qed.

Lemma llm_query_bad_body_witness :
  llm_query (demo_world 0 "" "hi") garbage_request None fresh =
    (Ok (JSONResponse 500 [("error", Some "Expecting value: line 1 column 1 (char 0)");
                           fallback]), fresh)
  /\ llm_query (demo_world 0 "" "hi") array_request None fresh =
       (Ok (JSONResponse 500 [("error", Some "'list' object has no attribute 'get'");
                              fallback]), fresh).
Proof.
  destruct (llm_query_bad_body (demo_world 0 "" "hi") (Some "text/plain") fresh) as [Hg _];
    [reflexivity|].
  destruct (llm_query_bad_body (demo_world 0 "" "hi") (Some "application/json") fresh)
    as [_ Ha]; [reflexivity|].
  split; [apply Hg | apply Ha].
Defined.

(** ** The shared audio artifact *)

(** X13. Whatever the providers answer, [generate_murf_audio_and_save]
    leaves the history store alone and touches at most the file at
    [out_path]: when it returns, it returns [out_path] and that file holds
    the bytes some download answered with status 200, replacing what was
    there; when it raises, the file system is exactly as before (no partial
    or empty artifact is left, an older one survives). *)
Theorem synthesis_writes_all_or_nothing (w : world) (text out_path : string) (s : state) :
  chat_store (generate_murf_audio_and_save w text out_path s).2 = chat_store s
  /\ match (generate_murf_audio_and_save w text out_path s).1 with
     | Ok p =>
         p = out_path
         /\ exists url r,
              download_endpoint w url = Ok r /\ resp_status_code r = 200
              /\ files (generate_murf_audio_and_save w text out_path s).2 =
                   <[out_path := resp_content r]> (files s)
     | Raise _ => files (generate_murf_audio_and_save w text out_path s).2 = files s
     end.
Proof.
  unfold generate_murf_audio_and_save, get_murf_voice_id, bind, call, lift, raise, ret,
    write_file.
  repeat (case_step; simpl); try (split; reflexivity).
  all: split; [reflexivity|]; split; [reflexivity|].
  all: match goal with
       | H : download_endpoint _ ?u = Ok ?r |- _ => exists u, r
       end.
  all: repeat split; try done.
  all: match goal with
       | H : negb (resp_status_code ?r =? 200) = false |- resp_status_code ?r = 200 =>
           apply negb_false_iff, Z.eqb_eq in H; exact H
       end.
Qed.

Lemma play_audio_run s : play_audio s = (Ok (served s), s).
Proof.
  unfold play_audio, served, bind, os_path_exists, read_file, ret, audio_not_found.
  destruct (files s !! "murf_output.mp3") eqn:E; simpl; [|reflexivity].
  by rewrite E.
Qed.

Lemma served_with_artifact d s : served (with_artifact (Some d) s) = inl d.
Proof. unfold served; simpl. by rewrite lookup_insert_eq. Qed.

Lemma served_settled w file evs a s :
  served (settled w file evs a s) =
    match a with
    | Some d => inl d
    | None => served (cleaned w s)
    end.
Proof.
  unfold served, settled, cleaned; destruct a as [d|]; simpl.
  - rewrite lookup_delete_ne by apply temp_name_not_output.
    by rewrite lookup_insert_eq.
  - rewrite !lookup_delete_ne by apply temp_name_not_output.
    by rewrite lookup_insert_ne by apply temp_name_not_output.
Qed.

Lemma served_cleaned w s : served (cleaned w s) = served s.
Proof.
  unfold served, cleaned; simpl.
  by rewrite lookup_delete_ne by apply temp_name_not_output.
Qed.

(** X14. GET /play-audio after POST /voice/text with a non-empty [text]:
    when the synthesis succeeded, it serves exactly the audio that request
    wrote, whatever was stored before; when the synthesis failed, it serves
    what it would have served before the request: the older audio of some
    other request, or the 404 with the fallback reference. *)
Theorem play_audio_after_voice_text (w : world) (payload : gmap string string)
    (text : string) (s : state) :
  payload !! "text" = Some text ->
  text <> "" ->
  (forall p, outcome (tts w text) = Ok p ->
     exists d, artifact w text = Some d
       /\ (play_audio (voice_text w payload s).2).1 = Ok (inl d))
  /\ (forall e, outcome (tts w text) = Raise e ->
        (play_audio (voice_text w payload s).2).1 = (play_audio s).1).
Proof.
  intros Hp Hne.
  assert (Hrun : voice_text w payload s =
            (match outcome (tts w text) with
             | Ok _ => Ok (json_ok [("reply", Some text); ("audio_file", Some "/play-audio")])
             | Raise e => Ok (tts_failed e)
             end,
             with_artifact (artifact w text) (logs (calls (tts w text)) s))).
  { unfold voice_text, try_except. rewrite (or_empty_first _ _ text Hp Hne).
    apply String.eqb_neq in Hne. rewrite Hne.
    rewrite bind_run. fold (tts w text). rewrite tts_run.
    by destruct (outcome (tts w text)). }
  rewrite Hrun, !play_audio_run. cbn [fst snd]. split.
  - intros p Hok. destruct (tts_ok_submits w text p Hok) as [_ [d Hd]].
    exists d. by rewrite Hd, served_with_artifact.
  - intros e He. by rewrite (tts_raise_no_artifact w text e He).
Qed.

Lemma play_audio_after_voice_text_witness :
  (play_audio (voice_text (demo_world 0 "" "") {[ "text" := "hello" ]} fresh).2).1 =
    Ok (inl [Byte.x49; Byte.x44; Byte.x33])
  /\ (play_audio (voice_text murf_down {[ "text" := "hello" ]} fresh).2).1 =
       Ok (inr audio_not_found).
Proof.
  destruct (play_audio_after_voice_text (demo_world 0 "" "") {[ "text" := "hello" ]}
              "hello" fresh) as [Hok _]; [reflexivity | discriminate |].
  destruct (play_audio_after_voice_text murf_down {[ "text" := "hello" ]}
              "hello" fresh) as [_ Hfail]; [reflexivity | discriminate |].
  destruct (Hok "murf_output.mp3" eq_refl) as (d & Hd & Hplay).
  vm_compute in Hd. injection Hd as <-.
  split; [exact Hplay|].
  rewrite (Hfail "Murf TTS failed: 500 Internal Server Error" eq_refl). reflexivity.
Defined.

(** X15. The audio file is shared by all pipelines and sessions.  After a
    POST /echobot/voice or POST /gemini/voice request whose synthesis
    succeeded, GET /play-audio serves that request's audio, whichever
    request or session had written the file before; after a request that
    failed before writing, it still serves the older audio. *)
Theorem play_audio_serves_latest (w : world) (session_id : string) (file : bytes)
    (s : state) :
  (forall t p,
     outcome (stt w file) = Ok t -> outcome (tts w t) = Ok p ->
     exists d, artifact w t = Some d
       /\ (play_audio (echobot_voice w session_id file s).2).1 = Ok (inl d))
  /\ (forall t r p,
        outcome (stt w file) = Ok t ->
        outcome (gemini_generate w (render (history session_id s ++ [user_turn t]))) = Ok r ->
        outcome (tts w (strip r)) = Ok p ->
        exists d, artifact w (strip r) = Some d
          /\ (play_audio (gemini_voice w session_id file s).2).1 = Ok (inl d))
  /\ (forall e, outcome (stt w file) = Raise e ->
        (play_audio (echobot_voice w session_id file s).2).1 = (play_audio s).1
        /\ (play_audio (gemini_voice w session_id file s).2).1 = (play_audio s).1).
Proof.
  split; [|split].
  - intros t p Ht Hp. destruct (tts_ok_submits w t p Hp) as [_ [d Hd]].
    exists d. split; [done|].
    rewrite echobot_voice_run, Ht. cbv zeta. rewrite Hp, play_audio_run. cbn [fst snd].
    by rewrite served_settled, Hd.
  - intros t r p Ht Hr Hp. destruct (tts_ok_submits w (strip r) p Hp) as [_ [d Hd]].
    exists d. split; [done|].
    rewrite gemini_voice_run, Ht. cbv zeta. rewrite Hr, Hp, play_audio_run. cbn [fst snd].
    by rewrite served_settled, Hd.
  - intros e He.
    rewrite echobot_voice_run, gemini_voice_run, He, !play_audio_run. cbn [fst snd].
    by rewrite served_settled, served_cleaned.
Qed.

Lemma play_audio_serves_latest_witness :
  (play_audio (echobot_voice (demo_world 1 "hello" "") "abc" [Byte.x01] fresh).2).1 =
    Ok (inl [Byte.x49; Byte.x44; Byte.x33])
  /\ (play_audio (gemini_voice upload_down "abc" [Byte.x01] fresh).2).1 =
       Ok (inr audio_not_found).
Proof.
  destruct (play_audio_serves_latest (demo_world 1 "hello" "") "abc" [Byte.x01] fresh)
    as (Hecho & _ & _).
  destruct (play_audio_serves_latest upload_down "abc" [Byte.x01] fresh)
    as (_ & _ & Hfail).
  destruct (Hecho "hello" "murf_output.mp3" eq_refl eq_refl) as (d & Hd & Hplay).
  vm_compute in Hd. injection Hd as <-.
  split; [exact Hplay|].
  destruct (Hfail "AssemblyAI upload failed: 500 Internal Server Error" eq_refl) as [_ ->].
  reflexivity.
Defined.

(** ** The inline echo handler *)

Lemma accepted_inv r :
  accepted r = true -> exists resp, r = Ok resp /\ ok_status (resp_status_code resp) = true.
Proof. destruct r as [resp|]; [|done]. intros H. by exists resp. Qed.

Lemma job_field_inv k r v :
  job_field k r = Some v ->
  exists resp o, r = Ok resp /\ resp_json resp = Ok (JObj o) /\ o !! k = Some v.
Proof.
  unfold job_field. destruct r as [resp|]; [|done].
  destruct (resp_json resp) as [[o|]|] eqn:E; try done.
  intros H. by exists resp, o.
Qed.

Lemma echo_poll_loop_pending w temp url on_error tries i s :
  pending (poll_endpoint w url i) = true ->
  echo_poll_loop w temp url on_error (S tries) i s =
  echo_poll_loop w temp url on_error tries (S i) (logs [EvPoll url; EvSleep 3] s).
Proof.
  intros Hp. apply pending_inv in Hp as (resp & o & Hr & Hc & Hj & H1 & H2).
  simpl. rewrite bind_run. unfold call at 1. rewrite Hr.
  rewrite bind_run. unfold lift at 1. rewrite Hj.
  rewrite bind_run. unfold lift at 1, py_get at 1.
  rewrite !bool_decide_eq_false_2 by done.
  rewrite bind_run. unfold time_sleep. simpl.
  by rewrite !log_logs, logs_logs.
Qed.

Lemma echo_poll_loop_pending_prefix w temp url on_error k : forall tries i s,
  (forall j, (j < k)%nat -> pending (poll_endpoint w url (i + j)) = true) ->
  echo_poll_loop w temp url on_error (k + tries) i s =
  echo_poll_loop w temp url on_error tries (i + k) (logs (rounds url 3 k) s).
Proof.
  induction k as [|k IH]; intros tries i s Hp.
  - by rewrite Nat.add_0_r, logs_nil.
  - change (S k + tries)%nat with (S (k + tries)).
    rewrite echo_poll_loop_pending.
    + rewrite IH.
      * rewrite logs_logs, <- rounds_S. by replace (S i + k)%nat with (i + S k)%nat by lia.
      * intros j Hj. replace (S i + j)%nat with (i + S j)%nat by lia. apply Hp. lia.
    + specialize (Hp 0%nat). rewrite Nat.add_0_r in Hp. apply Hp. lia.
Qed.

Lemma echo_poll_loop_completed w temp url on_error tries i s :
  job_status (poll_endpoint w url i) = Some (Some "completed") ->
  echo_poll_loop w temp url on_error (S tries) i s =
    (Ok (Break (default "" (job_field "text" (poll_endpoint w url i)))), log (EvPoll url) s).
Proof.
  unfold job_status, job_field.
  destruct (poll_endpoint w url i) as [resp|] eqn:Er; [|done].
  destruct (resp_status_code resp =? 200); [|done].
  destruct (resp_json resp) as [[o|]|] eqn:Ej; try done.
  intros Hc. injection Hc as Hc.
  simpl. rewrite bind_run. unfold call at 1. rewrite Er.
  rewrite bind_run. unfold lift at 1. rewrite Ej.
  rewrite bind_run. unfold lift at 1, py_get at 1. rewrite Hc.
  by rewrite bool_decide_eq_true_2.
Qed.
